(** * Ollama conversation agent: history store, trimmer, tool formatter and
      agent loop of [homeassistant/components/ollama/conversation.py]

    The Python module is embedded shallowly.  Dictionaries with a fixed
    shape become records, the [_history] dict becomes a [gmap], JSON
    payloads become values of [json], and every capability the agent
    consumes (clock, id generator, tool registry, template renderer,
    model server) is a field of a [Host] record that threads an abstract
    world state, so that the order of the calls is the order of the
    source.  Logging and conversation tracing are left out; readings of
    the monotonic clock are exact integers. *)

From Stdlib Require Import ZArith Ascii String DecimalString.
From stdpp Require Import base option list strings gmap fin_maps.

#[local] Set Warnings "-register-all".
Local Open Scope string_scope.
Local Open Scope list_scope.
Local Open Scope Z_scope.

(** ** JSON values and [json.dumps] *)

(** The JSON fragment the agent serialises: tool results and the error
    objects of lines 277-279.  Dicts keep their insertion order, numbers
    are integers, and a string is a sequence of code points below 256. *)
Inductive json : Type :=
| JNull
| JBool (b : bool)
| JInt (z : Z)
| JStr (s : string)
| JList (items : list json)
| JDict (items : list (string * json)).

Definition hex_digit (n : N) : ascii :=
  ascii_of_N (if (n <? 10)%N then 48 + n else 87 + n)%N.

(** ['\\u{0:04x}'.format(n)] for a code point below 256. *)
Definition escape_u (n : N) : string :=
  String "\" (String "u" (String "0" (String "0"
    (String (hex_digit (n / 16)) (String (hex_digit (n mod 16)) ""))))).

(** One character of [json.encoder.py_encode_basestring_ascii]: the named
    escapes of [ESCAPE_DCT], [\uXXXX] for everything outside [' '..'~']. *)
Definition escape_char (c : ascii) : string :=
  let n := N_of_ascii c in
  if (n =? 34)%N then String "\" (String c "")
  else if (n =? 92)%N then String "\" (String "\" "")
  else if (n =? 8)%N then String "\" "b"
  else if (n =? 12)%N then String "\" "f"
  else if (n =? 10)%N then String "\" "n"
  else if (n =? 13)%N then String "\" "r"
  else if (n =? 9)%N then String "\" "t"
  else if ((n <? 32) || (126 <? n))%N then escape_u n
  else String c "".

Fixpoint escape_body (s : string) : string :=
  match s with
  | EmptyString => ""
  | String c r => escape_char c +:+ escape_body r
  end.

Definition quote (s : string) : string :=
  String (ascii_of_N 34) (escape_body s) +:+ String (ascii_of_N 34) "".

(** [json.dumps] with its default separators [", "] and [": "]. *)
Fixpoint json_dumps (j : json) : string :=
  match j with
  | JNull => "null"
  | JBool true => "true"
  | JBool false => "false"
  | JInt z => NilZero.string_of_int (Z.to_int z)
  | JStr s => quote s
  | JList items =>
      "[" +:+
      (fix elems (l : list json) : string :=
         match l with
         | [] => ""
         | [x] => json_dumps x
         | x :: r => json_dumps x +:+ ", " +:+ elems r
         end) items +:+ "]"
  | JDict items =>
      "{" +:+
      (fix pairs (l : list (string * json)) : string :=
         match l with
         | [] => ""
         | [(k, v)] => quote k +:+ ": " +:+ json_dumps v
         | (k, v) :: r => quote k +:+ ": " +:+ json_dumps v +:+ ", " +:+ pairs r
         end) items +:+ "}"
  end.

(** ** Exceptions that escape a function *)

Inductive exn : Type :=
| KeyError (key : string)
| IndexError
| UnboundLocalError (name : string)
| OtherError (type_name : string).

(** Python truthiness of a [str | None]. *)
Definition truthy (o : option string) : bool :=
  match o with
  | Some s => negb (String.eqb s "")
  | None => false
  end.

(** ** Messages and histories ([ollama.Message], [models.MessageHistory]) *)

Record ToolCall : Type := mkToolCall {
  function_name : string;
  function_arguments : json
}.

(** [ollama.Message]: [role] is required, the other two keys may be
    missing from the dict. *)
Record Message : Type := mkMessage {
  role : string;
  content : option string;
  tool_calls : option (list ToolCall)
}.

Definition SYSTEM : string := "system".
Definition USER : string := "user".

Record MessageHistory : Type := mkHistory {
  timestamp : Z;
  messages : list Message
}.

(** Modelled from the spec: [MessageHistory.num_user_messages] lives in
    [models.py], which is not part of the sources at hand; the spec calls
    it the count of user-role messages in the history. *)
Definition num_user_messages (h : MessageHistory) : Z :=
  Z.of_nat (length (filter (λ m, role m = USER) (messages h))).

(** ** Python list slicing [l[i:]] *)

Definition slice_from {A : Type} (l : list A) (i : Z) : list A :=
  let n := Z.of_nat (length l) in
  let start := if i <? 0 then Z.max 0 (n + i) else Z.min i n in
  drop (Z.to_nat start) l.

(** ** History Trimmer: [_trim_history] (lines 302-316) *)

(** The method mutates [message_history] in place; the model returns the
    object after the call, or the exception [messages[0]] would raise. *)
Definition _trim_history (message_history : MessageHistory) (max_messages : Z)
  : exn + MessageHistory :=
  if max_messages <? 1 then inr message_history
  else if num_user_messages message_history >=? max_messages then
    let num_keep := 2 * max_messages in
    let drop_index := Z.of_nat (length (messages message_history)) - num_keep in
    match messages message_history with
    | [] => inl IndexError
    | m0 :: _ =>
        inr (mkHistory (timestamp message_history)
               ([m0] ++ slice_from (messages message_history) drop_index))
    end
  else inr message_history.

(** ** History Store: [_prune_old_histories] (lines 293-300) *)

(** [now] is the reading of [time.monotonic()] taken at line 295 and
    [max_history_seconds] the constant [MAX_HISTORY_SECONDS] of [const.py].
    Clock readings are exact numbers of clock ticks. *)
Definition _prune_old_histories (max_history_seconds now : Z)
    (_history : gmap string MessageHistory) : gmap string MessageHistory :=
  filter (λ kv, now - timestamp kv.2 <= max_history_seconds) _history.

(** ** Host platform types *)

Inductive IntentResponseErrorCode : Type :=
| NO_INTENT_MATCH
| NO_VALID_TARGETS
| FAILED_TO_HANDLE
| UNKNOWN.

(** What an [intent.IntentResponse] holds after construction,
    [async_set_speech] or [async_set_error]. *)
Inductive ResponseBody : Type :=
| NoBody
| Speech (speech : string)
| Error (code : IntentResponseErrorCode) (message : string).

Record IntentResponse : Type := mkIntentResponse {
  response_language : string;
  response_body : ResponseBody
}.

Definition async_set_speech (r : IntentResponse) (speech : string) : IntentResponse :=
  mkIntentResponse (response_language r) (Speech speech).

Definition async_set_error (r : IntentResponse) (code : IntentResponseErrorCode)
    (message : string) : IntentResponse :=
  mkIntentResponse (response_language r) (Error code message).

Record ConversationResult : Type := mkResult {
  response : IntentResponse;
  result_conversation_id : option string
}.

Record RequestContext : Type := mkContext {
  user_id : option string
}.

Record ConversationInput : Type := mkInput {
  text : string;
  user_context : option RequestContext;
  input_conversation_id : option string;
  device_id : option string;
  language : string
}.

Record LLMContext : Type := mkLLMContext {
  llm_platform : string;
  llm_request_context : option RequestContext;
  llm_user_prompt : string;
  llm_language : string;
  llm_assistant : string;
  llm_device_id : option string
}.

Record User : Type := mkUser {
  user_name_of : option string
}.

Record ToolInput : Type := mkToolInput {
  tool_name : string;
  tool_args : json
}.

(** How [llm_api.async_call_tool] ends: with a result, with an exception
    the [except] clause of line 276 catches ([HomeAssistantError] or
    [vol.Invalid]; [type_name] is [type(e).__name__], [message] is
    [str(e)]), or with any other exception. *)
Inductive ToolOutcome : Type :=
| ToolReturned (tool_response : json)
| ToolFailed (type_name message : string)
| ToolRaised (e : exn).

(** The keys of [entry.data] and [entry.options] the agent reads. *)
Record Conf : Type := mkConf {
  conf_model : option string;
  conf_llm_hass_api : option string;
  conf_prompt : option string;
  conf_max_history : option Z
}.

Record ConfigEntry : Type := mkEntry {
  data : Conf;
  options : Conf
}.

Definition or_else {A : Type} (o d : option A) : option A :=
  match o with
  | Some x => Some x
  | None => d
  end.

(** [{**self.entry.data, **self.entry.options}]: options win. *)
Definition merge_settings (entry : ConfigEntry) : Conf :=
  mkConf (or_else (conf_model (options entry)) (conf_model (data entry)))
         (or_else (conf_llm_hass_api (options entry)) (conf_llm_hass_api (data entry)))
         (or_else (conf_prompt (options entry)) (conf_prompt (data entry)))
         (or_else (conf_max_history (options entry)) (conf_max_history (data entry))).

(** Max number of back and forth with the LLM to generate a response. *)
Definition MAX_TOOL_ITERATIONS : nat := 10.

Section Agent.

Context {Schema Serializer World : Type}.

(** [llm.Tool]. *)
Record Tool : Type := mkTool {
  name : string;
  description : option string;
  parameters : Schema
}.

(** [llm.APIInstance]. *)
Record APIInstance : Type := mkAPI {
  api_prompt : string;
  custom_serializer : option Serializer;
  tools : list Tool
}.

Record RenderVariables : Type := mkVars {
  var_user_name : option string;
  var_llm_context : LLMContext
}.

(** Everything the agent consumes from outside the module: constants of
    [const.py] and [helpers/llm.py], [voluptuous_openapi.convert], and
    the calls that may suspend, each taking and returning the world. *)
Record Host : Type := mkHost {
  CONF_MODEL : string;
  DOMAIN : string;
  CONVERSATION_DOMAIN : string;
  DEFAULT_MAX_HISTORY : Z;
  MAX_HISTORY_SECONDS : Z;
  BASE_PROMPT : string;
  DEFAULT_INSTRUCTIONS_PROMPT : string;
  convert : Schema → option Serializer → json;
  ulid_now : World → string * World;
  monotonic : World → Z * World;
  async_get_api : string → LLMContext → World → (string + APIInstance) * World;
  async_get_user : string → World → option User * World;
  async_render : string → RenderVariables → World → (string + string) * World;
  chat : string → list Message → option (list json) → World → (string + Message) * World;
  async_call_tool : APIInstance → ToolInput → World → ToolOutcome * World
}.

Context (host : Host).

(** ** Tool Formatter: [_format_tool] (lines 42-52) *)

Definition _format_tool (tool : Tool) (serializer : option Serializer) : json :=
  let tool_spec :=
    [("name", JStr (name tool));
     ("parameters", convert host (parameters tool) serializer)] in
  let tool_spec :=
    if truthy (description tool)
    then tool_spec ++ [("description", JStr (default "" (description tool)))]
    else tool_spec in
  JDict [("type", JStr "function"); ("function", JDict tool_spec)].

(** ** Agent Loop: [async_process] (lines 99-291) *)

(** What a turn did with the outside, in order, with what came back. *)
Inductive Event : Type :=
| EvGetApi (outcome : string + APIInstance)
| EvRender (outcome : string + string)
| EvChat (sent : list Message) (outcome : string + Message)
| EvTool (tool_input : ToolInput) (outcome : ToolOutcome).

Inductive Outcome : Type :=
| Returned (r : ConversationResult)
| Raised (e : exn).

(** A finished call of [async_process]: how it ended, [self._history]
    and the world afterwards, and the events in between. *)
Record Turn : Type := mkTurn {
  result : Outcome;
  history_after : gmap string MessageHistory;
  world_after : World;
  trace : list Event
}.

(** The nested [message_convert] of lines 248-254. *)
Definition message_convert (response_message : Message) : Message :=
  mkMessage (role response_message)
    (if truthy (content response_message) then content response_message else None)
    (match tool_calls response_message with
     | Some (c :: r) => Some (c :: r)
     | _ => None
     end).

(** Lines 277-279: the dict built from a caught exception. *)
Definition error_object (type_name message : string) : json :=
  let tool_response := [("error", JStr type_name)] in
  JDict (if negb (String.eqb message "")
         then tool_response ++ [("error_text", JStr message)]
         else tool_response).

Definition tool_message (tool_response : json) : Message :=
  mkMessage "tool" (Some (json_dumps tool_response)) None.

(** The part of the turn's state the loop changes: the message list of
    [message_history], the world and the trace. *)
Record LoopState : Type := mkLoop {
  loop_messages : list Message;
  loop_world : World;
  loop_trace : list Event
}.

(** Lines 265-284: the [for tool_call in tool_calls] loop.  [Some e] when
    an exception the [except] clause does not catch leaves the loop. *)
Fixpoint call_tools (llm_api : APIInstance) (calls : list ToolCall) (st : LoopState)
  : option exn * LoopState :=
  match calls with
  | [] => (None, st)
  | tool_call :: rest =>
      let tool_input :=
        mkToolInput (function_name tool_call) (function_arguments tool_call) in
      let '(outcome, w) := async_call_tool host llm_api tool_input (loop_world st) in
      let tr := loop_trace st ++ [EvTool tool_input outcome] in
      match outcome with
      | ToolReturned tool_response =>
          call_tools llm_api rest
            (mkLoop (loop_messages st ++ [tool_message tool_response]) w tr)
      | ToolFailed type_name message =>
          call_tools llm_api rest
            (mkLoop (loop_messages st ++ [tool_message (error_object type_name message)]) w tr)
      | ToolRaised e => (Some e, mkLoop (loop_messages st) w tr)
      end
  end.

(** How the [for _iteration in range(...)] loop is left. [LoopFinished]
    carries the variable [response_message], unbound before the first
    iteration. *)
Inductive LoopExit : Type :=
| LoopFinished (response_message : option Message)
| LoopTransportError (err : string)
| LoopRaised (e : exn).

(** Lines 224-284, by recursion on the iterations that remain. *)
Fixpoint tool_loop (iterations : nat) (model : string) (tool_specs : option (list json))
    (llm_api : option APIInstance) (response_message : option Message) (st : LoopState)
  : LoopExit * LoopState :=
  match iterations with
  | O => (LoopFinished response_message, st)
  | S iterations' =>
      let '(reply, w) := chat host model (loop_messages st) tool_specs (loop_world st) in
      let tr := loop_trace st ++ [EvChat (loop_messages st) reply] in
      match reply with
      | inl err => (LoopTransportError err, mkLoop (loop_messages st) w tr)
      | inr response_message =>
          let st' := mkLoop (loop_messages st ++ [message_convert response_message]) w tr in
          match tool_calls response_message, llm_api with
          | Some (c :: r), Some api =>
              match call_tools api (c :: r) st' with
              | (Some e, st'') => (LoopRaised e, st'')
              | (None, st'') =>
                  tool_loop iterations' model tool_specs llm_api (Some response_message) st''
              end
          | _, _ => (LoopFinished (Some response_message), st')
          end
      end
  end.

(** Line 107: [user_input.conversation_id or ulid.ulid_now()]. *)
Definition resolve_conversation_id (user_input : ConversationInput) (w : World)
  : string * World :=
  if truthy (input_conversation_id user_input)
  then (default "" (input_conversation_id user_input), w)
  else ulid_now host w.

Definition make_llm_context (user_input : ConversationInput) : LLMContext :=
  mkLLMContext (DOMAIN host) (user_context user_input) (text user_input)
    (language user_input) (CONVERSATION_DOMAIN host) (device_id user_input).

(** Lines 144-151. *)
Definition resolve_user_name (user_input : ConversationInput) (w : World)
  : option string * World :=
  match user_context user_input with
  | Some c =>
      if truthy (user_id c) then
        let '(user, w') := async_get_user host (default "" (user_id c)) w in
        match user with
        | Some u => (user_name_of u, w')
        | None => (None, w')
        end
      else (None, w)
  | None => (None, w)
  end.

(** Lines 161-191: the system prompt of a new history. *)
Definition render_prompt (settings : Conf) (user_name : option string)
    (llm_context : LLMContext) (llm_api : option APIInstance) (w : World)
  : (string + string) * World :=
  let '(rendered, w') :=
    async_render host
      (BASE_PROMPT host +:+ default (DEFAULT_INSTRUCTIONS_PROMPT host) (conf_prompt settings))
      (mkVars user_name llm_context) w in
  match rendered with
  | inl err => (inl err, w')
  | inr part =>
      match llm_api with
      | Some api => (inr (part +:+ String (ascii_of_N 10) (api_prompt api)), w')
      | None => (inr part, w')
      end
  end.

(** The alias [message_history] points at the object stored under
    [conversation_id]; what the turn did to the object shows in the dict
    exactly when the entry is still there. *)
Definition write_back (conversation_id : string) (message_history : MessageHistory)
    (_history : gmap string MessageHistory) : gmap string MessageHistory :=
  alter (λ _, message_history) conversation_id _history.

(** Lines 286-291, and the [return] of lines 240-242. *)
Definition finish_turn (user_input : ConversationInput) (conversation_id : string)
    (exit : LoopExit) : Outcome :=
  match exit with
  | LoopTransportError err =>
      Returned (mkResult
        (async_set_error (mkIntentResponse (language user_input) NoBody) UNKNOWN
           ("Sorry, I had a problem talking to the Ollama server: " +:+ err))
        (Some conversation_id))
  | LoopRaised e => Raised e
  | LoopFinished None => Raised (UnboundLocalError "response_message")
  | LoopFinished (Some response_message) =>
      match content response_message with
      | None => Raised (KeyError "content")
      | Some speech =>
          Returned (mkResult
            (async_set_speech (mkIntentResponse (language user_input) NoBody) speech)
            (Some conversation_id))
      end
  end.

(** Lines 205-291: everything after the history has been resolved.
    [message_history] is the object in hand, [_history] holds it under
    [conversation_id]. *)
Definition run_turn (user_input : ConversationInput) (settings : Conf)
    (conversation_id model : string) (llm_api : option APIInstance)
    (tool_specs : option (list json)) (message_history : MessageHistory)
    (_history : gmap string MessageHistory) (w : World) (tr : list Event) : Turn :=
  let '(now, w) := monotonic host w in
  let _history := _prune_old_histories (MAX_HISTORY_SECONDS host) now _history in
  let max_messages := default (DEFAULT_MAX_HISTORY host) (conf_max_history settings) in
  match _trim_history message_history max_messages with
  | inl e => mkTurn (Raised e) _history w tr
  | inr message_history =>
      let msgs := messages message_history ++ [mkMessage USER (Some (text user_input)) None] in
      let '(exit, st) :=
        tool_loop MAX_TOOL_ITERATIONS model tool_specs llm_api None (mkLoop msgs w tr) in
      mkTurn (finish_turn user_input conversation_id exit)
        (write_back conversation_id
           (mkHistory (timestamp message_history) (loop_messages st)) _history)
        (loop_world st) (loop_trace st)
  end.

(** Lines 153-203 followed by the rest of the turn. *)
Definition resolve_history (user_input : ConversationInput) (settings : Conf)
    (conversation_id model : string) (llm_api : option APIInstance)
    (tool_specs : option (list json)) (user_name : option string)
    (_history : gmap string MessageHistory) (w : World) (tr : list Event) : Turn :=
  match _history !! conversation_id with
  | None =>
      let '(prompt, w) :=
        render_prompt settings user_name (make_llm_context user_input) llm_api w in
      let tr := tr ++ [EvRender prompt] in
      match prompt with
      | inl err =>
          mkTurn (Returned (mkResult
                    (async_set_error (mkIntentResponse (language user_input) NoBody) UNKNOWN
                       ("Sorry, I had a problem generating my prompt: " +:+ err))
                    (Some conversation_id)))
            _history w tr
      | inr prompt =>
          let '(now, w) := monotonic host w in
          let message_history := mkHistory now [mkMessage SYSTEM (Some prompt) None] in
          run_turn user_input settings conversation_id model llm_api tool_specs
            message_history (<[conversation_id := message_history]> _history) w tr
      end
  | Some message_history =>
      let '(now, w) := monotonic host w in
      let message_history := mkHistory now (messages message_history) in
      run_turn user_input settings conversation_id model llm_api tool_specs
        message_history (<[conversation_id := message_history]> _history) w tr
  end.

Definition async_process (entry : ConfigEntry) (user_input : ConversationInput)
    (_history : gmap string MessageHistory) (w : World) : Turn :=
  let settings := merge_settings entry in
  let '(conversation_id, w) := resolve_conversation_id user_input w in
  match conf_model settings with
  | None => mkTurn (Raised (KeyError (CONF_MODEL host))) _history w []
  | Some model =>
      let llm_context := make_llm_context user_input in
      if truthy (conf_llm_hass_api settings) then
        let '(api, w) :=
          async_get_api host (default "" (conf_llm_hass_api settings)) llm_context w in
        let tr := [EvGetApi api] in
        match api with
        | inl err =>
            mkTurn (Returned (mkResult
                      (async_set_error (mkIntentResponse (language user_input) NoBody) UNKNOWN
                         ("Error preparing LLM API: " +:+ err))
                      (input_conversation_id user_input)))
              _history w tr
        | inr llm_api =>
            let tool_specs :=
              map (λ tool, _format_tool tool (custom_serializer llm_api)) (tools llm_api) in
            let '(user_name, w) := resolve_user_name user_input w in
            resolve_history user_input settings conversation_id model (Some llm_api)
              (Some tool_specs) user_name _history w tr
        end
      else
        let '(user_name, w) := resolve_user_name user_input w in
        resolve_history user_input settings conversation_id model None None
          user_name _history w []
  end.

End Agent.

(** ** Reading a turn

    Observations on traces and turns, used to state what a turn did. *)

Section Reading.

Context {Schema Serializer World : Type} (host : @Host Schema Serializer World).

Definition tool_input_of (tool_call : ToolCall) : ToolInput :=
  mkToolInput (function_name tool_call) (function_arguments tool_call).

(** The tool invocations of a trace, in order. *)
Fixpoint tool_inputs (tr : list (@Event Schema Serializer)) : list ToolInput :=
  match tr with
  | [] => []
  | EvTool tool_input _ :: r => tool_input :: tool_inputs r
  | _ :: r => tool_inputs r
  end.

(** The number of calls to the model server in a trace. *)
Fixpoint chat_calls (tr : list (@Event Schema Serializer)) : nat :=
  match tr with
  | [] => 0
  | EvChat _ _ :: r => S (chat_calls r)
  | _ :: r => chat_calls r
  end.

(** What the model server answered last, [acc] if it was not called. *)
Fixpoint last_chat (tr : list (@Event Schema Serializer)) (acc : option (string + Message))
  : option (string + Message) :=
  match tr with
  | [] => acc
  | EvChat _ outcome :: r => last_chat r (Some outcome)
  | _ :: r => last_chat r acc
  end.

Definition is_tool_event (e : @Event Schema Serializer) : Prop :=
  match e with
  | EvTool _ _ => True
  | _ => False
  end.

Definition is_loop_event (e : @Event Schema Serializer) : Prop :=
  match e with
  | EvChat _ _ | EvTool _ _ => True
  | _ => False
  end.

Definition uncaught (e : @Event Schema Serializer) : Prop :=
  match e with
  | EvTool _ (ToolRaised _) => True
  | _ => False
  end.

(** How the outer loop was left, read off the events it added. *)
Definition exit_matches (evs : list (@Event Schema Serializer))
    (response_message : option Message) (exit : LoopExit) : Prop :=
  match exit with
  | LoopFinished last =>
      last_chat evs (inr <$> response_message) = inr <$> last ∧
      Forall (λ ev, ¬ uncaught ev) evs
  | LoopTransportError err =>
      last_chat evs (inr <$> response_message) = Some (inl err)
  | LoopRaised e => ∃ tool_input, EvTool tool_input (ToolRaised e) ∈ evs
  end.

Definition setup_success (e : @Event Schema Serializer) : Prop :=
  match e with
  | EvGetApi (inr _) | EvRender (inr _) => True
  | _ => False
  end.

(** The object the turn works on, against what the dict held before:
    the stored messages under a fresh timestamp, or a new history holding
    the system prompt only. *)
Definition in_hand (_history : gmap string MessageHistory) (conversation_id : string)
    (message_history : MessageHistory) : Prop :=
  match _history !! conversation_id with
  | Some h => messages message_history = messages h
  | None => ∃ prompt, messages message_history = [mkMessage SYSTEM (Some prompt) None]
  end.

Definition error_result (user_input : ConversationInput) (message : string)
    (conversation_id : option string) : Outcome :=
  Returned (mkResult (mkIntentResponse (language user_input) (Error UNKNOWN message))
              conversation_id).

(** The four ways through lines 103-203. *)
Inductive turn_shape (user_input : ConversationInput)
    (_history : gmap string MessageHistory) (conversation_id : string)
  : @Turn Schema Serializer World → Prop :=
| shape_no_model w :
    turn_shape user_input _history conversation_id
      (mkTurn (Raised (KeyError (CONF_MODEL host))) _history w [])
| shape_api_error err w :
    turn_shape user_input _history conversation_id
      (mkTurn (error_result user_input ("Error preparing LLM API: " +:+ err)
                 (input_conversation_id user_input))
         _history w [EvGetApi (inl err)])
| shape_render_error err w tr :
    _history !! conversation_id = None →
    Forall setup_success tr →
    turn_shape user_input _history conversation_id
      (mkTurn (error_result user_input
                 ("Sorry, I had a problem generating my prompt: " +:+ err)
                 (Some conversation_id))
         _history w (tr ++ [EvRender (inl err)]))
| shape_run settings model llm_api tool_specs message_history w tr :
    Forall setup_success tr →
    in_hand _history conversation_id message_history →
    turn_shape user_input _history conversation_id
      (run_turn host user_input settings conversation_id model llm_api tool_specs
         message_history (<[conversation_id := message_history]> _history) w tr).

Definition system_head (h : MessageHistory) : Prop :=
  ∃ m, head (messages h) = Some m ∧ role m = SYSTEM.

(** The states of [self._history]: empty after [__init__], then changed
    by turns only. *)
Inductive reachable : gmap string MessageHistory → Prop :=
| reachable_init : reachable ∅
| reachable_turn entry user_input _history w :
    reachable _history →
    reachable (history_after (async_process host entry user_input _history w)).

End Reading.

(** ** A scripted host

    A host whose world is a tick counter: every call advances it by one,
    the clock reads the counter, and the outcomes of the registry, the
    renderer, the model server and the tools are given as scripts. *)
Definition scripted_host (api : string + @APIInstance unit unit)
    (rendered : string + string) (reply : list Message → string + Message)
    (run_tool : ToolInput → ToolOutcome) : @Host unit unit nat :=
  {| CONF_MODEL := "model";
     DOMAIN := "ollama";
     CONVERSATION_DOMAIN := "conversation";
     DEFAULT_MAX_HISTORY := 20;
     MAX_HISTORY_SECONDS := 3600;
     BASE_PROMPT := "Current time is {{ now() }}. ";
     DEFAULT_INSTRUCTIONS_PROMPT := "You are a voice assistant for Home Assistant.";
     convert := λ _ _, JDict [("type", JStr "object")];
     ulid_now := λ w, ("01JBULID", S w);
     monotonic := λ w, (Z.of_nat w, S w);
     async_get_api := λ _ _ w, (api, S w);
     async_get_user := λ _ w, (None, S w);
     async_render := λ _ _ w, (rendered, S w);
     chat := λ _ sent _ w, (reply sent, S w);
     async_call_tool := λ _ tool_input w, (run_tool tool_input, S w) |}.

(** ** Scenarios *)

Definition c2_system : Message := mkMessage SYSTEM (Some "You are a voice assistant.") None.

Definition c2_call : Message :=
  mkMessage "assistant" None (Some [mkToolCall "HassTurnOn" (JDict [("name", JStr "kitchen")])]).

Definition c2_tool : Message := mkMessage "tool" (Some "{}") None.

(** One user turn that took three model replies: six messages after the
    system prompt, a single one of them with role user. *)
Definition c2_rest : list Message :=
  [mkMessage USER (Some "turn on the kitchen light") None;
   c2_call; c2_tool; c2_call; c2_tool;
   mkMessage "assistant" (Some "Done.") None].

Definition c2_history : MessageHistory := mkHistory 0 (c2_system :: c2_rest).

Definition c6_store : gmap string MessageHistory :=
  <["idle" := mkHistory 99 [c2_system]]>
    (<["edge" := mkHistory 100 c2_rest]> ∅).

Definition c10_tool : @Tool unit := mkTool "HassTurnOn" (Some "") tt.

Definition demo_api : @APIInstance unit unit :=
  mkAPI "Call the tools to control the home." None
    [mkTool "HassTurnOn" (Some "Turns on a device") tt].

(** Model in [entry.data], tool registry enabled in [entry.options]. *)
Definition demo_entry : ConfigEntry :=
  mkEntry (mkConf (Some "llama3.1") None None None)
          (mkConf None (Some "assist") None None).

(** No tool registry configured. *)
Definition plain_entry : ConfigEntry :=
  mkEntry (mkConf (Some "llama3.1") None None None)
          (mkConf None None None None).

(** A first utterance: the caller supplies no conversation id. *)
Definition demo_input : ConversationInput :=
  mkInput "turn on the kitchen light" None None None "en".

Definition demo_answer : Message := mkMessage "assistant" (Some "Done.") None.

Definition c10_host : @Host unit unit nat :=
  scripted_host (inl "unused") (inl "unused") (λ _, inl "unused") (λ _, ToolReturned JNull).

(** The tool registry cannot be acquired. *)
Definition c1_host : @Host unit unit nat :=
  scripted_host (inl "API assist not found") (inr "You are a voice assistant.")
    (λ _, inr demo_answer) (λ _, ToolReturned JNull).

(** The model server answers every call with a tool call and no
    [content] key; the tool succeeds. *)
Definition c4_host : @Host unit unit nat :=
  scripted_host (inr demo_api) (inr "You are a voice assistant.")
    (λ _, inr c2_call) (λ _, ToolReturned (JDict [("success", JBool true)])).

(** As [c4_host], the replies carrying an empty [content]. *)
Definition c4_host_empty_content : @Host unit unit nat :=
  scripted_host (inr demo_api) (inr "You are a voice assistant.")
    (λ _, inr (mkMessage "assistant" (Some "") (tool_calls c2_call)))
    (λ _, ToolReturned (JDict [("success", JBool true)])).

(** The model server answers with a message that has a role only. *)
Definition c5_host : @Host unit unit nat :=
  scripted_host (inl "unused") (inr "You are a voice assistant.")
    (λ _, inr (mkMessage "assistant" None None)) (λ _, ToolReturned JNull).

(** Every tool call fails: an unknown tool with a message, anything else
    with a validation error whose text is empty. *)
Definition c7_host : @Host unit unit nat :=
  scripted_host (inr demo_api) (inr "You are a voice assistant.")
    (λ _, inr demo_answer)
    (λ tool_input,
       if String.eqb (tool_name tool_input) "HassTurnOn"
       then ToolFailed "MultipleInvalid" ""
       else ToolFailed "HomeAssistantError" "Tool not found").

Definition c7_unknown : ToolCall := mkToolCall "HassExplode" (JDict []).
Definition c7_invalid : ToolCall := mkToolCall "HassTurnOn" (JDict [("nme", JStr "kitchen")]).

(** A plain answer on the first call. *)
Definition c8_host : @Host unit unit nat :=
  scripted_host (inr demo_api) (inr "You are a voice assistant.")
    (λ _, inr demo_answer) (λ _, ToolReturned JNull).

(** The prompt template does not render. *)
Definition c9_host : @Host unit unit nat :=
  scripted_host (inr demo_api) (inl "UndefinedError: 'foo' is undefined")
    (λ _, inr demo_answer) (λ _, ToolReturned JNull).

(** ** Reading a turn, continued *)

Section ReadingLoop.

Context {Schema Serializer World : Type} (host : @Host Schema Serializer World).

(** Line 213-215: the message appended for the caller's text. *)
Definition user_message (user_input : ConversationInput) : Message :=
  mkMessage USER (Some (text user_input)) None.

(** The tool calls the model server asked for in a trace, in order. *)
Fixpoint requested_tools (tr : list (@Event Schema Serializer)) : list ToolInput :=
  match tr with
  | [] => []
  | EvChat _ (inr response_message) :: r =>
      map tool_input_of (default [] (tool_calls response_message)) ++ requested_tools r
  | _ :: r => requested_tools r
  end.

(** The turn got to line 205 with [message_history] in hand and the
    events [tr] behind it, and ended as lines 205-291 end: pruned,
    trimmed, the user message appended, the loop run from there. *)
Definition ran_loop (user_input : ConversationInput)
    (_history : gmap string MessageHistory) (conversation_id : string)
    (llm_api : option (@APIInstance Schema Serializer)) (tr : list Event)
    (turn : @Turn Schema Serializer World) : Prop :=
  ∃ settings model tool_specs message_history trimmed now w exit st,
    in_hand _history conversation_id message_history ∧
    _trim_history message_history
      (default (DEFAULT_MAX_HISTORY host) (conf_max_history settings)) = inr trimmed ∧
    tool_loop host MAX_TOOL_ITERATIONS model tool_specs llm_api None
      (mkLoop (messages trimmed ++ [user_message user_input]) w tr) = (exit, st) ∧
    turn =
      mkTurn (finish_turn user_input conversation_id exit)
        (write_back conversation_id
           (mkHistory (timestamp trimmed) (loop_messages st))
           (_prune_old_histories (MAX_HISTORY_SECONDS host) now
              (<[conversation_id := message_history]> _history)))
        (loop_world st) (loop_trace st).

End ReadingLoop.

(** The model server cannot be reached. *)
Definition x4_host : @Host unit unit nat :=
  scripted_host (inr demo_api) (inr "You are a voice assistant.")
    (λ _, inl "connection refused") (λ _, ToolReturned JNull).

(** The model server asks for a tool first and answers once it has seen
    the tool result. *)
Definition x10_host : @Host unit unit nat :=
  scripted_host (inr demo_api) (inr "You are a voice assistant.")
    (λ sent, if (length sent <? 4)%nat then inr c2_call else inr demo_answer)
    (λ _, ToolReturned (JDict [("success", JBool true)])).

(** What a first turn with the registry acquired sends to the model
    server: the rendered prompt joined with the registry's prompt, then
    the caller's text. *)
Definition demo_system : Message :=
  mkMessage SYSTEM
    (Some ("You are a voice assistant." +:+
           String (ascii_of_N 10) "Call the tools to control the home."))
    None.

Definition demo_sent : list Message := [demo_system; user_message demo_input].

(** A follow-up utterance in the conversation [kitchen]. *)
Definition followup_input : ConversationInput :=
  mkInput "and the hallway" None (Some "kitchen") None "en".

(** A store holding the conversation [kitchen] after one exchange. *)
Definition kitchen_store : gmap string MessageHistory :=
  <["kitchen" := mkHistory 0 [c2_system;
                              mkMessage USER (Some "turn on the kitchen light") None;
                              demo_answer]]> ∅.

(** Two turns that failed before any reply: user messages only. *)
Definition x9_history : MessageHistory :=
  mkHistory 5 [c2_system;
               mkMessage USER (Some "turn on the kitchen light") None;
               mkMessage USER (Some "hello?") None].

(** * Properties *)

(** ** History Trimmer *)

Lemma slice_from_nonneg {A : Type} (l : list A) (i : Z) :
  0 ≤ i → i ≤ Z.of_nat (length l) → slice_from l i = drop (Z.to_nat i) l.
Proof.
  intros Hi Hlen. unfold slice_from.
  destruct (Z.ltb_spec i 0) as [?|_]; [lia|].
  by rewrite Z.min_l.
Qed.

Lemma trim_unbounded (h : MessageHistory) (max_messages : Z) :
  max_messages < 1 → _trim_history h max_messages = inr h.
Proof.
  intros Hlt. unfold _trim_history.
  by destruct (Z.ltb_spec max_messages 1) as [_|?]; [|lia].
Qed.

Lemma trim_below_threshold (h : MessageHistory) (max_messages : Z) :
  num_user_messages h < max_messages → _trim_history h max_messages = inr h.
Proof.
  intros Hlt. unfold _trim_history.
  destruct (max_messages <? 1); [done|].
  unfold Z.geb. destruct (Z.compare_spec (num_user_messages h) max_messages); [lia|done|lia].
Qed.

Lemma trim_triggered (ts : Z) (m0 : Message) (rest : list Message) (max_messages : Z) :
  1 ≤ max_messages →
  max_messages ≤ num_user_messages (mkHistory ts (m0 :: rest)) →
  _trim_history (mkHistory ts (m0 :: rest)) max_messages =
    inr (mkHistory ts
           (m0 :: slice_from (m0 :: rest)
                    (Z.of_nat (length (m0 :: rest)) - 2 * max_messages))).
Proof.
  intros Hmax Husers. unfold _trim_history.
  destruct (Z.ltb_spec max_messages 1) as [?|_]; [lia|].
  unfold Z.geb.
  destruct (Z.compare_spec (num_user_messages (mkHistory ts (m0 :: rest))) max_messages);
    (lia || done).
Qed.

(** The indexing of [messages[0]] at line 315 is never out of range: the
    branch is entered with at least one user message in the list. *)
Lemma trim_never_raises (h : MessageHistory) (max_messages : Z) :
  ∃ h', _trim_history h max_messages = inr h'.
Proof.
  unfold _trim_history.
  destruct (max_messages <? 1) eqn:Hmax; [by eexists|].
  destruct (num_user_messages h >=? max_messages) eqn:Husers; [|by eexists].
  destruct h as [ts [|m0 rest]]; [|by eexists].
  unfold num_user_messages in Husers. simpl in Husers.
  apply Z.ltb_ge in Hmax. apply Z.geb_le in Husers. lia.
Qed.

(** Element 0 of the list survives [_trim_history]. *)
Lemma trim_keeps_head (h h' : MessageHistory) (max_messages : Z) :
  _trim_history h max_messages = inr h' →
  head (messages h') = head (messages h) ∧ timestamp h' = timestamp h.
Proof.
  unfold _trim_history.
  destruct (max_messages <? 1); [by intros [= ->]|].
  destruct (num_user_messages h >=? max_messages); [|by intros [= ->]].
  destruct h as [ts [|m0 rest]]; [done|].
  by intros [= <-].
Qed.

(** C2, counterexample: with [max_user_turns = 2] and a history of the
    system prompt followed by 2*2+2 messages of which one has role user,
    [_trim_history] leaves all seven messages in place instead of keeping
    the system prompt and the last four. *)
Lemma trim_few_user_messages_counterexample :
  messages c2_history = c2_system :: c2_rest ∧
  length c2_rest = (2 * 2 + 2)%nat ∧
  _trim_history c2_history 2 = inr c2_history ∧
  messages c2_history ≠ c2_system :: drop 2 c2_rest.
Proof. repeat split; done. Qed.

(** C2, amended: for [max_user_turns = N >= 1] and a history of a system
    prompt followed by 2N+k messages, at least N of them with role user,
    [_trim_history] yields the system prompt plus the last 2N messages;
    with fewer than N user-role messages the history is left as it is;
    and for [max_user_turns < 1] the history is left as it is, so its
    length is never reduced. *)
Theorem trim_keeps_system_and_last_2N :
  (∀ (N : Z) (k : nat) (ts : Z) (system : Message) (rest : list Message),
     1 ≤ N →
     length rest = (2 * Z.to_nat N + k)%nat →
     N ≤ num_user_messages (mkHistory ts (system :: rest)) →
     _trim_history (mkHistory ts (system :: rest)) N =
       inr (mkHistory ts (system :: drop k rest))
     ∧ length (drop k rest) = (2 * Z.to_nat N)%nat) ∧
  (∀ (N : Z) (h : MessageHistory),
     num_user_messages h < N → _trim_history h N = inr h) ∧
  (∀ (N : Z) (h : MessageHistory),
     N < 1 → _trim_history h N = inr h).
Proof.
  split; [|split; intros; [by apply trim_below_threshold | by apply trim_unbounded]].
  intros N k ts system rest HN Hlen Husers.
  rewrite trim_triggered by done.
  split; [|rewrite length_drop; lia].
  rewrite slice_from_nonneg; simpl length; [|lia|lia].
  replace (Z.to_nat (Z.of_nat (S (length rest)) - 2 * N)) with (S k) by lia.
  done.
Qed.

Lemma trim_keeps_system_and_last_2N_witness :
  _trim_history
    (mkHistory 7 (c2_system :: [mkMessage USER (Some "hi") None;
                               mkMessage "assistant" (Some "Hello") None;
                               mkMessage USER (Some "lights on") None;
                               mkMessage "assistant" (Some "Done.") None])) 1 =
    inr (mkHistory 7 (c2_system :: [mkMessage USER (Some "lights on") None;
                                   mkMessage "assistant" (Some "Done.") None]))
  ∧ _trim_history c2_history 2 = inr c2_history
  ∧ _trim_history c2_history 0 = inr c2_history.
Proof.
  destruct trim_keeps_system_and_last_2N as (Hfull & Hbelow & Hoff).
  split; [|split].
  - refine (proj1 (Hfull 1 2%nat 7 c2_system _ _ _ _)); [lia|reflexivity|].
    vm_compute. discriminate.
  - apply Hbelow. vm_compute. reflexivity.
  - apply Hoff. lia.
Defined.

(** C3: for [max_messages >= 1] and a history of exactly [2*max_messages]
    elements with at least [max_messages] user-role messages, the drop
    index is 0, the slice is the whole list, and [_trim_history] returns
    the list with its former first element prepended: one element longer,
    that element at index 0 and at index 1. *)
Theorem trim_at_exact_length_duplicates_head
    (h : MessageHistory) (max_messages : Z) :
  1 ≤ max_messages →
  Z.of_nat (length (messages h)) = 2 * max_messages →
  max_messages ≤ num_user_messages h →
  ∃ m0 h',
    head (messages h) = Some m0 ∧
    _trim_history h max_messages = inr h' ∧
    messages h' = m0 :: messages h ∧
    length (messages h') = S (length (messages h)) ∧
    messages h' !! 0%nat = Some m0 ∧
    messages h' !! 1%nat = Some m0.
Proof.
  intros Hmax Hlen Husers.
  destruct h as [ts [|m0 rest]]; [simpl in Hlen; lia|].
  exists m0. eexists. split; [done|].
  rewrite trim_triggered by done.
  split; [done|]. cbn [messages] in *.
  rewrite Hlen, Z.sub_diag, slice_from_nonneg by lia.
  done.
Qed.

Lemma trim_at_exact_length_duplicates_head_witness :
  ∃ m0 h',
    head [c2_system; mkMessage USER (Some "hello") None] = Some m0 ∧
    _trim_history (mkHistory 3 [c2_system; mkMessage USER (Some "hello") None]) 1 = inr h' ∧
    messages h' = m0 :: [c2_system; mkMessage USER (Some "hello") None] ∧
    length (messages h') = 3%nat ∧
    messages h' !! 0%nat = Some m0 ∧
    messages h' !! 1%nat = Some m0.
Proof.
  apply (trim_at_exact_length_duplicates_head
           (mkHistory 3 [c2_system; mkMessage USER (Some "hello") None]) 1);
    [lia | reflexivity | vm_compute; discriminate].
Defined.

(** ** History Store *)

Lemma prune_lookup_Some (ttl now : Z) (_history : gmap string MessageHistory)
    (cid : string) (h : MessageHistory) :
  _prune_old_histories ttl now _history !! cid = Some h ↔
  _history !! cid = Some h ∧ now - timestamp h ≤ ttl.
Proof. unfold _prune_old_histories. by rewrite map_lookup_filter_Some. Qed.

(** C6: [_prune_old_histories] removes the entry of a conversation id if
    and only if [now - timestamp] is strictly greater than the TTL; an
    entry with [now - timestamp] equal to the TTL is retained; a retained
    entry is the entry that was stored, messages included; and pruning
    adds no entry. *)
Theorem prune_removes_iff_idle_longer_than_ttl
    (ttl now : Z) (_history : gmap string MessageHistory)
    (cid : string) (h : MessageHistory) :
  _history !! cid = Some h →
  (_prune_old_histories ttl now _history !! cid = None ↔ now - timestamp h > ttl) ∧
  (now - timestamp h = ttl → _prune_old_histories ttl now _history !! cid = Some h) ∧
  (∀ h', _prune_old_histories ttl now _history !! cid = Some h' →
         h' = h ∧ messages h' = messages h) ∧
  (∀ cid' h', _prune_old_histories ttl now _history !! cid' = Some h' →
              _history !! cid' = Some h').
Proof.
  intros Hcid. split; [split|split; [|split]].
  - intros Hgone. destruct (Z.le_gt_cases (now - timestamp h) ttl) as [Hle|?]; [|lia].
    assert (_prune_old_histories ttl now _history !! cid = Some h) as Hkept
      by by apply prune_lookup_Some.
    congruence.
  - intros Hold. destruct (_prune_old_histories ttl now _history !! cid) as [h'|] eqn:Hkept;
      [|done].
    apply prune_lookup_Some in Hkept as [Hsame Hle].
    assert (h' = h) as -> by congruence. lia.
  - intros Heq. apply prune_lookup_Some. split; [done|lia].
  - intros h' Hkept. apply prune_lookup_Some in Hkept as [Hsame _].
    assert (h' = h) as -> by congruence. done.
  - intros cid' h' Hkept. by apply prune_lookup_Some in Hkept as [? _].
Qed.

Lemma prune_removes_iff_idle_longer_than_ttl_witness :
  (_prune_old_histories 3600 3700 c6_store !! "edge" = None ↔ 3700 - 100 > 3600) ∧
  (3700 - 100 = 3600 →
   _prune_old_histories 3600 3700 c6_store !! "edge" = Some (mkHistory 100 c2_rest)) ∧
  (∀ h', _prune_old_histories 3600 3700 c6_store !! "edge" = Some h' →
         h' = mkHistory 100 c2_rest ∧ messages h' = c2_rest) ∧
  (∀ cid' h', _prune_old_histories 3600 3700 c6_store !! cid' = Some h' →
              c6_store !! cid' = Some h').
Proof.
  apply (prune_removes_iff_idle_longer_than_ttl 3600 3700 c6_store "edge"
           (mkHistory 100 c2_rest)).
  reflexivity.
Defined.

(** The entry one tick past the TTL is gone, the one at the TTL stays. *)
Example prune_boundary :
  _prune_old_histories 3600 3700 c6_store !! "idle" = None ∧
  _prune_old_histories 3600 3700 c6_store !! "edge" = Some (mkHistory 100 c2_rest).
Proof. split; vm_compute; reflexivity. Qed.

(** ** Tool Formatter *)

(** C10, counterexample: a descriptor whose description is present and is
    the empty string is formatted without the [description] key, not with
    [description] equal to that string. *)
Lemma format_tool_empty_description_counterexample :
  description c10_tool = Some "" ∧
  _format_tool c10_host c10_tool None =
    JDict [("type", JStr "function");
           ("function", JDict [("name", JStr "HassTurnOn");
                               ("parameters", convert c10_host tt None)])] ∧
  _format_tool c10_host c10_tool None ≠
    JDict [("type", JStr "function");
           ("function", JDict [("name", JStr "HassTurnOn");
                               ("parameters", convert c10_host tt None);
                               ("description", JStr "")])].
Proof. repeat split; done. Qed.

Section FormatTool.

Context {Schema Serializer World : Type} (host : @Host Schema Serializer World).

(** C10, amended: [_format_tool] returns exactly
    [{type: function, function: {name, parameters}}], the parameters being
    the schema converted with the custom serializer and the [description]
    key absent, when the descriptor's description is missing or is the
    empty string; and the same object extended with [description] equal to
    the descriptor's description verbatim when the description is a
    non-empty string.  The result depends on the descriptor and the
    serializer only. *)
Theorem format_tool_shape (tool : Tool) (serializer : option Serializer) :
  (description tool = None ∨ description tool = Some "" →
   _format_tool host tool serializer =
     JDict [("type", JStr "function");
            ("function", JDict [("name", JStr (name tool));
                                ("parameters", convert host (parameters tool) serializer)])]) ∧
  (∀ d, description tool = Some d → d ≠ "" →
   _format_tool host tool serializer =
     JDict [("type", JStr "function");
            ("function", JDict [("name", JStr (name tool));
                                ("parameters", convert host (parameters tool) serializer);
                                ("description", JStr d)])]) ∧
  (∀ tool' serializer',
     name tool' = name tool → description tool' = description tool →
     parameters tool' = parameters tool → serializer' = serializer →
     _format_tool host tool' serializer' = _format_tool host tool serializer).
Proof.
  unfold _format_tool. split; [|split].
  - by intros [-> | ->].
  - intros d -> Hd. simpl. by apply String.eqb_neq in Hd as ->.
  - by intros tool' serializer' -> -> -> ->.
Qed.

End FormatTool.

Lemma format_tool_shape_witness :
  _format_tool c10_host (mkTool "HassTurnOn" (Some "Turns on a device") tt) None =
    JDict [("type", JStr "function");
           ("function", JDict [("name", JStr "HassTurnOn");
                               ("parameters", JDict [("type", JStr "object")]);
                               ("description", JStr "Turns on a device")])] ∧
  _format_tool c10_host (mkTool "HassTurnOn" None tt) None =
    JDict [("type", JStr "function");
           ("function", JDict [("name", JStr "HassTurnOn");
                               ("parameters", JDict [("type", JStr "object")])])].
Proof.
  split.
  - refine (proj1 (proj2 (format_tool_shape c10_host
             (mkTool "HassTurnOn" (Some "Turns on a device") tt) None)) _ eq_refl _).
    discriminate.
  - refine (proj1 (format_tool_shape c10_host (mkTool "HassTurnOn" None tt) None) _).
    left. reflexivity.
Defined.

(** ** Agent Loop: what the two loops do to the history and the trace *)

Section LoopFacts.

Context {Schema Serializer World : Type} (host : @Host Schema Serializer World).

Lemma chat_calls_app (tr1 tr2 : list (@Event Schema Serializer)) :
  chat_calls (tr1 ++ tr2) = (chat_calls tr1 + chat_calls tr2)%nat.
Proof.
  induction tr1 as [|[] tr1 IH]; simpl; [done|done|done| |done].
  by rewrite IH.
Qed.

Lemma last_chat_app (tr1 tr2 : list (@Event Schema Serializer)) acc :
  last_chat (tr1 ++ tr2) acc = last_chat tr2 (last_chat tr1 acc).
Proof.
  revert acc. induction tr1 as [|[] tr1 IH]; intros acc; simpl; done.
Qed.

Lemma last_chat_tool_events (tr : list (@Event Schema Serializer)) acc :
  Forall is_tool_event tr → last_chat tr acc = acc ∧ chat_calls tr = 0%nat.
Proof.
  induction 1 as [|[] tr Hev _ IH]; simpl; done.
Qed.

Lemma last_chat_elem (tr : list (@Event Schema Serializer)) acc outcome :
  last_chat tr acc = Some outcome →
  acc = Some outcome ∨ ∃ sent, EvChat sent outcome ∈ tr.
Proof.
  revert acc. induction tr as [|e tr IH]; intros acc; simpl; [by left|].
  destruct e as [o|o|sent o|tool_input o]; intros Hlast;
    apply IH in Hlast as [Hacc|[sent' Hin]];
    try (by left); try (right; exists sent'; by apply list_elem_of_further).
  right. exists sent. injection Hacc as ->. apply list_elem_of_here.
Qed.

(** The inner loop only appends: one tool-role message and one event per
    call made.  It stops early only on an exception line 276 does not
    catch; otherwise every call of the reply is made, in order. *)
Lemma call_tools_extends (api : APIInstance) (calls : list ToolCall) (st st' : LoopState)
    (r : option exn) :
  call_tools host api calls st = (r, st') →
  ∃ msgs evs,
    loop_messages st' = loop_messages st ++ msgs ∧
    loop_trace st' = loop_trace st ++ evs ∧
    Forall is_tool_event evs ∧
    Forall (λ m, role m = "tool") msgs ∧
    match r with
    | Some e => ∃ tool_input, EvTool tool_input (ToolRaised e) ∈ evs
    | None =>
        tool_inputs evs = map tool_input_of calls ∧
        length msgs = length calls ∧
        Forall (λ ev, ¬ uncaught ev) evs
    end.
Proof.
  revert st. induction calls as [|tool_call rest IH]; intros st; simpl.
  - intros [= <- <-]. exists [], []. by rewrite !app_nil_r.
  - destruct (async_call_tool host api _ (loop_world st)) as [outcome w] eqn:Hcall.
    destruct outcome as [tool_response|type_name message|e].
    + intros Hrest. apply IH in Hrest as (msgs & evs & Hm & Ht & Hev & Hroles & Hr).
      simpl in Hm, Ht. eexists (_ :: msgs), (_ :: evs).
      rewrite Hm, Ht, <-!app_assoc. repeat split; [by constructor|by constructor|].
      destruct r as [e|].
      * destruct Hr as [ti Hin]. exists ti. by apply list_elem_of_further.
      * destruct Hr as (Hin & Hlen & Hno). simpl. rewrite Hin, Hlen.
        repeat split. constructor; [tauto|done].
    + intros Hrest. apply IH in Hrest as (msgs & evs & Hm & Ht & Hev & Hroles & Hr).
      simpl in Hm, Ht. eexists (_ :: msgs), (_ :: evs).
      rewrite Hm, Ht, <-!app_assoc. repeat split; [by constructor|by constructor|].
      destruct r as [e|].
      * destruct Hr as [ti Hin]. exists ti. by apply list_elem_of_further.
      * destruct Hr as (Hin & Hlen & Hno). simpl. rewrite Hin, Hlen.
        repeat split. constructor; [tauto|done].
    + intros [= <- <-]. simpl. exists [], [EvTool (tool_input_of tool_call) (ToolRaised e)].
      rewrite app_nil_r. repeat split; [by repeat constructor|constructor|].
      eexists. apply list_elem_of_here.
Qed.

#[local] Arguments call_tools : simpl never.

(** The outer loop only appends to the messages and to the trace, calls
    the model server at most [iterations] times, and leaves in the way
    the last events say. *)
Lemma tool_loop_extends (iterations : nat) (model : string) (tool_specs : option (list json))
    (llm_api : option APIInstance) (response_message : option Message)
    (st st' : LoopState) (exit : LoopExit) :
  tool_loop host iterations model tool_specs llm_api response_message st = (exit, st') →
  ∃ msgs evs,
    loop_messages st' = loop_messages st ++ msgs ∧
    loop_trace st' = loop_trace st ++ evs ∧
    Forall is_loop_event evs ∧
    (chat_calls evs ≤ iterations)%nat ∧
    exit_matches evs response_message exit.
Proof.
  revert response_message st.
  induction iterations as [|n IH]; intros response_message st; simpl.
  - intros [= <- <-]. exists [], []. rewrite !app_nil_r. by repeat split.
  - destruct (chat host model (loop_messages st) tool_specs (loop_world st))
      as [reply w] eqn:Hchat.
    destruct reply as [err|rm].
    + intros [= <- <-]. simpl. exists [], [EvChat (loop_messages st) (inl err)].
      rewrite app_nil_r. repeat split; [by repeat constructor|simpl; lia].
    + assert (∀ last, (LoopFinished (Some rm),
                 mkLoop (loop_messages st ++ [message_convert rm]) w
                   (loop_trace st ++ [EvChat (loop_messages st) (inr rm)])) = (exit, st') →
              ∃ msgs evs,
                loop_messages st' = loop_messages st ++ msgs ∧
                loop_trace st' = loop_trace st ++ evs ∧
                Forall is_loop_event evs ∧ (chat_calls evs ≤ S n)%nat ∧
                exit_matches evs last exit) as Hbreak.
      { intros last [= <- <-]. simpl.
        exists [message_convert rm], [EvChat (loop_messages st) (inr rm)].
        repeat split; [by repeat constructor|simpl; lia|].
        repeat constructor. tauto. }
      destruct (tool_calls rm) as [[|c r]|]; [by apply Hbreak| |by apply Hbreak].
      destruct llm_api as [api|]; [|by apply Hbreak].
      destruct (call_tools host api (c :: r) _) as [[e|] st''] eqn:Htools.
      * intros [= <- <-].
        apply call_tools_extends in Htools as (msgs & evs & Hm & Ht & Hev & _ & ti & Hin).
        simpl in Hm, Ht. eexists (_ :: msgs), (_ :: evs).
        rewrite Hm, Ht, <-!app_assoc. repeat split.
        -- constructor; [done|]. eapply Forall_impl; [exact Hev|]. by intros [].
        -- simpl. destruct (last_chat_tool_events evs None Hev) as [_ ->]. lia.
        -- exists ti. by apply list_elem_of_further.
      * intros Hrest.
        apply call_tools_extends in Htools as (msgs & evs & Hm & Ht & Hev & _ & _ & _ & Hno).
        apply IH in Hrest as (msgs' & evs' & Hm' & Ht' & Hev' & Hcount & Hexit).
        simpl in Hm, Ht. eexists (_ :: msgs ++ msgs'), (_ :: evs ++ evs').
        rewrite Hm', Ht', Hm, Ht, <-!app_assoc. repeat split.
        -- constructor; [done|]. apply Forall_app_2; [|done].
           eapply Forall_impl; [exact Hev|]. by intros [].
        -- simpl. rewrite chat_calls_app.
           destruct (last_chat_tool_events evs None Hev) as [_ ->]. lia.
        -- destruct exit as [last|err|e]; simpl in *.
           ++ rewrite last_chat_app.
              destruct (last_chat_tool_events evs (Some (inr rm)) Hev) as [-> _].
              destruct Hexit as [Hlast Hno']. split; [done|].
              constructor; [tauto|]. by apply Forall_app_2.
           ++ rewrite last_chat_app.
              by destruct (last_chat_tool_events evs (Some (inr rm)) Hev) as [-> _].
           ++ destruct Hexit as [ti Hin]. exists ti.
              apply list_elem_of_further, elem_of_app. by right.
Qed.

End LoopFacts.

(** ** Agent Loop: the shapes a turn can take *)

Section TurnFacts.

Context {Schema Serializer World : Type} (host : @Host Schema Serializer World).

Lemma resolve_history_shape (user_input : ConversationInput) (settings : Conf)
    (conversation_id model : string) (llm_api : option APIInstance)
    (tool_specs : option (list json)) (user_name : option string)
    (_history : gmap string MessageHistory) (w : World) (tr : list Event) :
  Forall setup_success tr →
  turn_shape host user_input _history conversation_id
    (resolve_history host user_input settings conversation_id model llm_api tool_specs
       user_name _history w tr).
Proof.
  intros Htr. unfold resolve_history.
  destruct (_history !! conversation_id) as [h|] eqn:Hlookup.
  - destruct (monotonic host w) as [now w'].
    apply shape_run; [done|]. unfold in_hand. by rewrite Hlookup.
  - destruct (render_prompt host settings user_name _ llm_api w) as [[err|prompt] w'].
    + by apply shape_render_error.
    + destruct (monotonic host w') as [now w''].
      apply shape_run.
      * apply Forall_app_2; [done|]. by repeat constructor.
      * unfold in_hand. rewrite Hlookup. by eexists.
Qed.

Lemma async_process_shape (entry : ConfigEntry) (user_input : ConversationInput)
    (_history : gmap string MessageHistory) (w : World) :
  turn_shape host user_input _history (resolve_conversation_id host user_input w).1
    (async_process host entry user_input _history w).
Proof.
  unfold async_process.
  generalize (merge_settings entry). intros settings.
  destruct (resolve_conversation_id host user_input w) as [conversation_id w1].
  cbn [fst].
  destruct (conf_model settings) as [model|]; [|apply shape_no_model].
  destruct (truthy (conf_llm_hass_api settings)).
  - destruct (async_get_api host _ _ w1) as [[err|llm_api] w2]; [apply shape_api_error|].
    destruct (resolve_user_name host user_input w2) as [user_name w3].
    apply resolve_history_shape. by repeat constructor.
  - destruct (resolve_user_name host user_input w1) as [user_name w2].
    by apply resolve_history_shape.
Qed.

(** Lines 205-291 always get past the trimmer, and leave the messages of
    the trimmed history, the user message and whatever the loop appended
    in the object in hand. *)
Lemma run_turn_spec (user_input : ConversationInput) (settings : Conf)
    (conversation_id model : string) (llm_api : option APIInstance)
    (tool_specs : option (list json)) (message_history : MessageHistory)
    (_history : gmap string MessageHistory) (w : World) (tr : list Event) :
  ∃ now trimmed exit msgs evs w',
    _trim_history message_history
      (default (DEFAULT_MAX_HISTORY host) (conf_max_history settings)) = inr trimmed ∧
    Forall is_loop_event evs ∧
    (chat_calls evs ≤ MAX_TOOL_ITERATIONS)%nat ∧
    exit_matches evs None exit ∧
    run_turn host user_input settings conversation_id model llm_api tool_specs
      message_history _history w tr =
    mkTurn (finish_turn user_input conversation_id exit)
      (write_back conversation_id
         (mkHistory (timestamp trimmed)
            (messages trimmed ++ mkMessage USER (Some (text user_input)) None :: msgs))
         (_prune_old_histories (MAX_HISTORY_SECONDS host) now _history))
      w' (tr ++ evs).
Proof.
  unfold run_turn. destruct (monotonic host w) as [now w1].
  destruct (trim_never_raises message_history
              (default (DEFAULT_MAX_HISTORY host) (conf_max_history settings)))
    as [trimmed ->].
  destruct (tool_loop host MAX_TOOL_ITERATIONS model tool_specs llm_api None _)
    as [exit st] eqn:Hloop.
  apply tool_loop_extends in Hloop as (msgs & evs & Hm & Ht & Hev & Hcount & Hexit).
  simpl in Hm, Ht. exists now, trimmed, exit, msgs, evs, (loop_world st).
  rewrite Hm, Ht, <-app_assoc. done.
Qed.

Lemma setup_no_chat (tr : list (@Event Schema Serializer)) acc :
  Forall setup_success tr →
  last_chat tr acc = acc ∧ Forall (λ ev, ¬ uncaught ev) tr.
Proof.
  induction 1 as [|e tr He _ [IH1 IH2]]; simpl; [done|].
  destruct e as [[|]|[|]| |]; try done; (split; [done|]); constructor; tauto.
Qed.

End TurnFacts.

(** ** Agent Loop: error paths, tool failures and the first message *)

Section TurnProperties.

Context {Schema Serializer World : Type} (host : @Host Schema Serializer World).

#[local] Arguments call_tools : simpl never.

(** What a turn leaves under a conversation id, against what was there. *)
Lemma turn_history_lookup (entry : ConfigEntry) (user_input : ConversationInput)
    (_history : gmap string MessageHistory) (w : World) (cid : string) (h' : MessageHistory) :
  history_after (async_process host entry user_input _history w) !! cid = Some h' →
  match _history !! cid with
  | Some h => messages h ≠ [] → head (messages h') = head (messages h)
  | None => ∃ prompt, head (messages h') = Some (mkMessage SYSTEM (Some prompt) None)
  end.
Proof.
  assert (∀ hist : gmap string MessageHistory, hist !! cid = Some h' →
          match hist !! cid with
          | Some h => messages h ≠ [] → head (messages h') = head (messages h)
          | None => ∃ prompt, head (messages h') = Some (mkMessage SYSTEM (Some prompt) None)
          end) as Hsame by (by intros hist ->).
  destruct (async_process_shape host entry user_input _history w)
    as [w'|err w'|err w' tr Hnone Htr|settings model llm_api tool_specs mh0 w' tr Htr Hhand];
    [by apply Hsame..|].
  destruct (run_turn_spec host user_input settings
              (resolve_conversation_id host user_input w).1 model llm_api tool_specs mh0
              (<[(resolve_conversation_id host user_input w).1 := mh0]> _history) w' tr)
    as (now & trimmed & exit & msgs & evs & w'' & Htrim & _ & _ & _ & ->).
  cbn [history_after]. unfold write_back.
  destruct (decide (cid = (resolve_conversation_id host user_input w).1)) as [->|Hne].
  - rewrite lookup_alter_eq.
    destruct (_prune_old_histories _ now _ !! _) as [kept|]; [|done].
    intros [= <-]. cbn [messages].
    apply trim_keeps_head in Htrim as [Hhead _].
    unfold in_hand in Hhand.
    destruct (_history !! (resolve_conversation_id host user_input w).1) as [h|].
    + intros Hnonempty. rewrite head_app, Hhead, Hhand.
      destruct (messages h); done.
    + destruct Hhand as [prompt Hhand]. exists prompt.
      by rewrite head_app, Hhead, Hhand.
  - rewrite lookup_alter_ne by done. intros Hkept.
    apply prune_lookup_Some in Hkept as [Hkept _].
    rewrite lookup_insert_ne in Hkept by done. by apply Hsame.
Qed.

(** C8: in every reachable state of the history map, element 0 of every
    stored message list is a message with role system; a turn leaves
    element 0 of every history it retains as it was, and starts a new
    history with the system-prompt message; [_trim_history] keeps element
    0; and [_prune_old_histories] returns retained entries as they were
    stored, so it removes whole entries only. *)
Theorem system_prompt_stays_first :
  (∀ _history, reachable host _history →
     ∀ cid h, _history !! cid = Some h → system_head h) ∧
  (∀ entry user_input _history w cid h h',
     _history !! cid = Some h → messages h ≠ [] →
     history_after (async_process host entry user_input _history w) !! cid = Some h' →
     head (messages h') = head (messages h)) ∧
  (∀ entry user_input _history w cid h',
     _history !! cid = None →
     history_after (async_process host entry user_input _history w) !! cid = Some h' →
     ∃ prompt, head (messages h') = Some (mkMessage SYSTEM (Some prompt) None)) ∧
  (∀ h max_messages h',
     _trim_history h max_messages = inr h' → head (messages h') = head (messages h)) ∧
  (∀ ttl now (_history : gmap string MessageHistory) cid h,
     _prune_old_histories ttl now _history !! cid = Some h → _history !! cid = Some h).
Proof.
  assert (∀ entry user_input _history w cid h h',
     _history !! cid = Some h → messages h ≠ [] →
     history_after (async_process host entry user_input _history w) !! cid = Some h' →
     head (messages h') = head (messages h)) as Hkeep.
  { intros entry user_input _history w cid h h' Hold Hnonempty Hnew.
    apply turn_history_lookup in Hnew. rewrite Hold in Hnew. by apply Hnew. }
  assert (∀ entry user_input _history w cid h',
     _history !! cid = None →
     history_after (async_process host entry user_input _history w) !! cid = Some h' →
     ∃ prompt, head (messages h') = Some (mkMessage SYSTEM (Some prompt) None)) as Hnew.
  { intros entry user_input _history w cid h' Hold Hnew.
    apply turn_history_lookup in Hnew. by rewrite Hold in Hnew. }
  repeat split; [|done|done| |].
  - induction 1 as [|entry user_input _history w Hreach IH]; intros cid h' Hlookup.
    + by rewrite lookup_empty in Hlookup.
    + destruct (_history !! cid) as [h|] eqn:Hold.
      * destruct (IH cid h Hold) as (m & Hhead & Hrole).
        exists m. split; [|done].
        rewrite <-Hhead. eapply Hkeep; [done| |done].
        intros Hnil. by rewrite Hnil in Hhead.
      * destruct (Hnew entry user_input _history w cid h' Hold Hlookup) as [prompt Hhead].
        by eexists.
  - intros h max_messages h' Htrim. by apply trim_keeps_head in Htrim as [? _].
  - intros ttl now _history cid h Hkept. by apply prune_lookup_Some in Hkept as [? _].
Qed.

(** C9: when the rendering of the system prompt fails in a turn, the
    conversation id of the turn had no history, [async_process] returns
    an error response carrying that conversation id, and the history map
    is the one the turn started with: no entry is stored. *)
Theorem prompt_render_failure_stores_nothing
    (entry : ConfigEntry) (user_input : ConversationInput)
    (_history : gmap string MessageHistory) (w : World) (err : string) :
  EvRender (inl err) ∈ trace (async_process host entry user_input _history w) →
  _history !! (resolve_conversation_id host user_input w).1 = None ∧
  result (async_process host entry user_input _history w) =
    error_result user_input ("Sorry, I had a problem generating my prompt: " +:+ err)
      (Some (resolve_conversation_id host user_input w).1) ∧
  history_after (async_process host entry user_input _history w) = _history ∧
  history_after (async_process host entry user_input _history w)
    !! (resolve_conversation_id host user_input w).1 = None.
Proof.
  destruct (async_process_shape host entry user_input _history w)
    as [w'|err' w'|err' w' tr Hnone Htr|settings model llm_api tool_specs mh0 w' tr Htr Hhand];
    cbn [trace result history_after].
  - intros Hin. inversion Hin.
  - intros Hin. apply list_elem_of_singleton in Hin. discriminate.
  - intros Hin. apply elem_of_app in Hin as [Hin|Hin].
    + rewrite Forall_forall in Htr. by apply Htr in Hin.
    + apply list_elem_of_singleton in Hin. by injection Hin as ->.
  - destruct (run_turn_spec host user_input settings
                (resolve_conversation_id host user_input w).1 model llm_api tool_specs mh0
                (<[(resolve_conversation_id host user_input w).1 := mh0]> _history) w' tr)
      as (now & trimmed & exit & msgs & evs & w'' & _ & Hev & _ & _ & ->).
    cbn [trace]. intros Hin. apply elem_of_app in Hin as [Hin|Hin].
    + rewrite Forall_forall in Htr. by apply Htr in Hin.
    + rewrite Forall_forall in Hev. by apply Hev in Hin.
Qed.

(** C5: when the last reply the model server gave in a turn has no
    [content] key and no tool call raised an exception that line 276 does
    not catch, the turn reaches line 288 and [async_process] raises
    [KeyError] there instead of returning a [ConversationResult]. *)
Theorem missing_content_raises_key_error
    (entry : ConfigEntry) (user_input : ConversationInput)
    (_history : gmap string MessageHistory) (w : World) (response_message : Message) :
  last_chat (trace (async_process host entry user_input _history w)) None =
    Some (inr response_message) →
  content response_message = None →
  Forall (λ ev, ¬ uncaught ev) (trace (async_process host entry user_input _history w)) →
  result (async_process host entry user_input _history w) = Raised (KeyError "content").
Proof.
  intros Hlast Hcontent Hcaught. revert Hlast Hcaught.
  destruct (async_process_shape host entry user_input _history w)
    as [w'|err' w'|err' w' tr Hnone Htr|settings model llm_api tool_specs mh0 w' tr Htr Hhand];
    cbn [trace result]; [done|done| |].
  - rewrite last_chat_app. by destruct (setup_no_chat tr None Htr) as [-> _].
  - destruct (run_turn_spec host user_input settings
                (resolve_conversation_id host user_input w).1 model llm_api tool_specs mh0
                (<[(resolve_conversation_id host user_input w).1 := mh0]> _history) w' tr)
      as (now & trimmed & exit & msgs & evs & w'' & _ & Hev & _ & Hexit & ->).
    cbn [trace result]. rewrite last_chat_app.
    destruct (setup_no_chat tr None Htr) as [-> _].
    intros Hlast Hcaught. apply Forall_app in Hcaught as [_ Hcaught].
    destruct exit as [last|err|e]; simpl in Hexit.
    + destruct Hexit as [Hexit _]. rewrite Hlast in Hexit.
      destruct last as [last|]; [|done]. injection Hexit as <-.
      simpl. by rewrite Hcontent.
    + congruence.
    + destruct Hexit as [tool_input Hin].
      rewrite Forall_forall in Hcaught. apply Hcaught in Hin. by destruct Hin.
Qed.

(** C7: a tool call that fails with an exception line 276 catches does
    not end the turn.  A tool-role message whose content is the JSON
    object with key [error] holding the type name, and key [error_text]
    holding the message exactly when the message is non-empty, is
    appended, and the loop goes on with the remaining calls of the reply;
    unless a call raises something else, every call of the reply is made,
    in order, with one tool-role message each, and the model server is
    asked again; and an error response of [async_process] always comes
    from a failed registry acquisition, prompt rendering or model call. *)
Theorem tool_failure_becomes_tool_message :
  (∀ api tool_call rest st type_name message w,
     async_call_tool host api (tool_input_of tool_call) (loop_world st) =
       (ToolFailed type_name message, w) →
     call_tools host api (tool_call :: rest) st =
       call_tools host api rest
         (mkLoop
            (loop_messages st ++
               [mkMessage "tool"
                  (Some (json_dumps
                           (JDict (("error", JStr type_name) ::
                                   if decide (message = "") then []
                                   else [("error_text", JStr message)]))))
                  None])
            w
            (loop_trace st ++
               [EvTool (tool_input_of tool_call) (ToolFailed type_name message)]))) ∧
  (∀ api calls st r st',
     call_tools host api calls st = (r, st') →
     ∃ msgs evs,
       loop_messages st' = loop_messages st ++ msgs ∧
       loop_trace st' = loop_trace st ++ evs ∧
       Forall (λ m, role m = "tool") msgs ∧
       match r with
       | Some e => ∃ tool_input, EvTool tool_input (ToolRaised e) ∈ evs
       | None => tool_inputs evs = map tool_input_of calls ∧ length msgs = length calls
       end) ∧
  (∀ iterations model tool_specs api last st response_message c r w st',
     chat host model (loop_messages st) tool_specs (loop_world st) =
       (inr response_message, w) →
     tool_calls response_message = Some (c :: r) →
     call_tools host api (c :: r)
       (mkLoop (loop_messages st ++ [message_convert response_message]) w
          (loop_trace st ++ [EvChat (loop_messages st) (inr response_message)])) =
       (None, st') →
     tool_loop host (S iterations) model tool_specs (Some api) last st =
       tool_loop host iterations model tool_specs (Some api) (Some response_message) st') ∧
  (∀ entry user_input _history w r code message,
     result (async_process host entry user_input _history w) = Returned r →
     response_body (response r) = Error code message →
     ∃ err,
       EvGetApi (inl err) ∈ trace (async_process host entry user_input _history w) ∨
       EvRender (inl err) ∈ trace (async_process host entry user_input _history w) ∨
       ∃ sent, EvChat sent (inl err)
                 ∈ trace (async_process host entry user_input _history w)).
Proof.
  split; [|split; [|split]].
  - intros api tool_call rest st type_name message w Hcall.
    unfold call_tools at 1. fold (call_tools host). fold (tool_input_of tool_call).
    rewrite Hcall. unfold tool_message, error_object.
    destruct (decide (message = "")) as [->|Hne]; [done|].
    by apply String.eqb_neq in Hne as ->.
  - intros api calls st r st' Hcall.
    apply call_tools_extends in Hcall as (msgs & evs & Hm & Ht & _ & Hroles & Hr).
    exists msgs, evs. repeat split; [done..|].
    destruct r; [done|]. by destruct Hr as (? & ? & _).
  - intros iterations model tool_specs api last st response_message c r w st'
      Hchat Hcalls Htools.
    simpl. by rewrite Hchat, Hcalls, Htools.
  - intros entry user_input _history w r code message.
    destruct (async_process_shape host entry user_input _history w)
      as [w'|err' w'|err' w' tr Hnone Htr|settings model llm_api tool_specs mh0 w' tr Htr Hhand];
      cbn [trace result]; [done| | |].
    + intros _ _. exists err'. left. apply list_elem_of_here.
    + intros _ _. exists err'. right. left. apply elem_of_app. right. apply list_elem_of_here.
    + destruct (run_turn_spec host user_input settings
                  (resolve_conversation_id host user_input w).1 model llm_api tool_specs mh0
                  (<[(resolve_conversation_id host user_input w).1 := mh0]> _history) w' tr)
        as (now & trimmed & exit & msgs & evs & w'' & _ & Hev & _ & Hexit & ->).
      cbn [trace result].
      destruct exit as [[last|]|err|e]; simpl; [|done| |done].
      * destruct (content last); [|done]. by intros [= <-].
      * intros _ _. simpl in Hexit. apply last_chat_elem in Hexit as [?|[sent Hin]]; [done|].
        exists err. right. right. exists sent. apply elem_of_app. by right.
Qed.

(** Which conversation id a terminal error response carries: the
    caller's own value, possibly [None], after a failed registry
    acquisition, and the id of the turn after the other two failures. *)
Lemma terminal_error_ids (entry : ConfigEntry) (user_input : ConversationInput)
    (_history : gmap string MessageHistory) (w : World)
    (r : ConversationResult) (code : IntentResponseErrorCode) (message : string) :
  result (async_process host entry user_input _history w) = Returned r →
  response_body (response r) = Error code message →
  (∃ err, trace (async_process host entry user_input _history w) = [EvGetApi (inl err)] ∧
          result_conversation_id r = input_conversation_id user_input) ∨
  result_conversation_id r = Some (resolve_conversation_id host user_input w).1.
Proof.
  destruct (async_process_shape host entry user_input _history w)
    as [w'|err' w'|err' w' tr Hnone Htr|settings model llm_api tool_specs mh0 w' tr Htr Hhand];
    cbn [trace result]; [done| | |].
  - intros [= <-] _. left. by exists err'.
  - intros [= <-] _. by right.
  - destruct (run_turn_spec host user_input settings
                (resolve_conversation_id host user_input w).1 model llm_api tool_specs mh0
                (<[(resolve_conversation_id host user_input w).1 := mh0]> _history) w' tr)
      as (now & trimmed & exit & msgs & evs & w'' & _ & _ & _ & _ & ->).
    cbn [result]. destruct exit as [[last|]|err|e]; simpl; [|done| |done].
    + destruct (content last); [|done]. by intros [= <-].
    + intros [= <-] _. by right.
Qed.

End TurnProperties.

(** ** Agent Loop: the iteration cap *)

Section AlwaysToolCalls.

Context {Schema Serializer World : Type} (host : @Host Schema Serializer World).

#[local] Arguments call_tools : simpl never.

Variables (model : string) (tool_specs : option (list json))
  (api : @APIInstance Schema Serializer).

(** A model server that answers every call with tool calls, and a tool
    registry that fails with caught exceptions only. *)
Hypothesis always_tool_calls :
  ∀ sent w, ∃ response_message c r,
    (chat host model sent tool_specs w).1 = inr response_message ∧
    tool_calls response_message = Some (c :: r).

Hypothesis tools_caught :
  ∀ tool_input w e, (async_call_tool host api tool_input w).1 ≠ ToolRaised e.

Lemma call_tools_caught (calls : list ToolCall) (st : LoopState) :
  (call_tools host api calls st).1 = None.
Proof.
  destruct (call_tools host api calls st) as [[e|] st'] eqn:Hcall; [|done].
  revert st Hcall. induction calls as [|tool_call rest IH]; intros st; [done|].
  unfold call_tools. fold (call_tools host).
  pose proof (tools_caught (mkToolInput (function_name tool_call)
                              (function_arguments tool_call)) (loop_world st)) as Hcaught.
  destruct (async_call_tool host api _ (loop_world st)) as [[v|type_name message|e'] w'];
    [apply IH|apply IH|].
  by destruct (Hcaught e').
Qed.

(** The loop runs to its bound and makes one model call per iteration. *)
Lemma tool_loop_to_the_cap (iterations : nat) (last : option Message) (st : LoopState) :
  ∃ last' st',
    tool_loop host iterations model tool_specs (Some api) last st =
      (LoopFinished last', st') ∧
    chat_calls (loop_trace st') = (chat_calls (loop_trace st) + iterations)%nat ∧
    (iterations ≠ 0%nat ∨ is_Some last → is_Some last').
Proof.
  revert last st. induction iterations as [|n IH]; intros last st.
  - exists last, st. simpl. repeat split; [lia|]. by intros [?|?].
  - simpl.
    destruct (always_tool_calls (loop_messages st) (loop_world st))
      as (rm & c & r & Hchat & Hcalls).
    destruct (chat host model (loop_messages st) tool_specs (loop_world st)) as [reply w].
    simpl in Hchat. subst reply. rewrite Hcalls.
    pose proof (call_tools_caught (c :: r)
                  (mkLoop (loop_messages st ++ [message_convert rm]) w
                     (loop_trace st ++ [EvChat (loop_messages st) (inr rm)]))) as Hnone.
    destruct (call_tools host api (c :: r) _) as [r0 st''] eqn:Htools.
    simpl in Hnone. subst r0.
    apply call_tools_extends in Htools as (msgs & evs & _ & Ht & Hev & _).
    simpl in Ht.
    destruct (IH (Some rm) st'') as (last' & st' & -> & Hcount & Hlast).
    exists last', st'. split; [done|]. split.
    + rewrite Hcount, Ht, !chat_calls_app.
      destruct (last_chat_tool_events evs None Hev) as [_ ->]. simpl. lia.
    + intros _. apply Hlast. by right.
Qed.

(** Iteration cap: the rest of a turn, from line 205 on, calls the model
    server exactly [MAX_TOOL_ITERATIONS] times and then ends on the last
    reply: with its content as the answer when it has the key, with
    [KeyError] when it has not. *)
Lemma run_turn_to_the_cap (user_input : ConversationInput) (settings : Conf)
    (conversation_id : string) (message_history : MessageHistory)
    (_history : gmap string MessageHistory) (w : World) (tr : list Event) :
  ∃ response_message,
    chat_calls (trace (run_turn host user_input settings conversation_id model (Some api)
                         tool_specs message_history _history w tr))
      = (chat_calls tr + MAX_TOOL_ITERATIONS)%nat ∧
    result (run_turn host user_input settings conversation_id model (Some api)
              tool_specs message_history _history w tr) =
      match content response_message with
      | Some speech =>
          Returned (mkResult (mkIntentResponse (language user_input) (Speech speech))
                      (Some conversation_id))
      | None => Raised (KeyError "content")
      end.
Proof.
  unfold run_turn. destruct (monotonic host w) as [now w1].
  destruct (trim_never_raises message_history
              (default (DEFAULT_MAX_HISTORY host) (conf_max_history settings)))
    as [trimmed ->].
  destruct (tool_loop_to_the_cap MAX_TOOL_ITERATIONS None
              (mkLoop (messages trimmed ++ [mkMessage USER (Some (text user_input)) None])
                 w1 tr))
    as (last & st' & -> & Hcount & Hlast).
  destruct Hlast as [rm ->]; [by left|].
  exists rm. cbn [trace result]. split; [done|].
  simpl. by destruct (content rm).
Qed.

End AlwaysToolCalls.

(** ** Agent Loop: scenarios *)

(** C1: the tool registry cannot be acquired and the caller supplied no
    conversation id.  The turn has generated an id at line 107, yet the
    response of lines 136-138 carries [user_input.conversation_id], which
    is [None]. *)
Theorem registry_failure_returns_caller_id :
  input_conversation_id demo_input = None ∧
  (resolve_conversation_id c1_host demo_input 0%nat).1 = "01JBULID" ∧
  result (async_process c1_host demo_entry demo_input ∅ 0%nat) =
    error_result demo_input "Error preparing LLM API: API assist not found" None.
Proof. repeat split; vm_compute; reflexivity. Qed.

(** C4: the model server answers every call with tool calls and no
    [content] key, a tool registry is configured.  The model server is
    called ten times, then line 288 raises [KeyError] instead of ending
    the turn with an answer. *)
Theorem iteration_cap_without_content_raises :
  chat_calls (trace (async_process c4_host demo_entry demo_input ∅ 0%nat)) = 10%nat ∧
  last_chat (trace (async_process c4_host demo_entry demo_input ∅ 0%nat)) None =
    Some (inr c2_call) ∧
  tool_calls c2_call = Some [mkToolCall "HassTurnOn" (JDict [("name", JStr "kitchen")])] ∧
  result (async_process c4_host demo_entry demo_input ∅ 0%nat) = Raised (KeyError "content").
Proof. repeat split; vm_compute; reflexivity. Qed.

(** With an empty [content] in the replies the same turn ends with the
    tenth reply's content as the answer. *)
Example iteration_cap_with_empty_content :
  chat_calls (trace (async_process c4_host_empty_content demo_entry demo_input ∅ 0%nat))
    = 10%nat ∧
  result (async_process c4_host_empty_content demo_entry demo_input ∅ 0%nat) =
    Returned (mkResult (mkIntentResponse "en" (Speech "")) (Some "01JBULID")).
Proof. repeat split; vm_compute; reflexivity. Qed.

Lemma system_prompt_stays_first_witness :
  ∃ h, history_after (async_process c8_host demo_entry demo_input ∅ 0%nat) !! "01JBULID"
         = Some h ∧
       system_head h.
Proof.
  eexists. split.
  - vm_compute. reflexivity.
  - apply (proj1 (system_prompt_stays_first c8_host)
             (history_after (async_process c8_host demo_entry demo_input ∅ 0%nat))
             (reachable_turn c8_host demo_entry demo_input ∅ 0%nat (reachable_init c8_host))
             "01JBULID").
    vm_compute. reflexivity.
Defined.

Lemma prompt_render_failure_stores_nothing_witness :
  (∅ : gmap string MessageHistory) !! "01JBULID" = None ∧
  result (async_process c9_host demo_entry demo_input ∅ 0%nat) =
    error_result demo_input
      "Sorry, I had a problem generating my prompt: UndefinedError: 'foo' is undefined"
      (Some "01JBULID") ∧
  history_after (async_process c9_host demo_entry demo_input ∅ 0%nat) = ∅ ∧
  history_after (async_process c9_host demo_entry demo_input ∅ 0%nat) !! "01JBULID" = None.
Proof.
  apply (prompt_render_failure_stores_nothing c9_host demo_entry demo_input ∅ 0%nat
           "UndefinedError: 'foo' is undefined").
  apply list_elem_of_further, list_elem_of_here.
Defined.

Lemma missing_content_raises_key_error_witness :
  result (async_process c5_host plain_entry demo_input ∅ 0%nat) = Raised (KeyError "content").
Proof.
  apply (missing_content_raises_key_error c5_host plain_entry demo_input ∅ 0%nat
           (mkMessage "assistant" None None)).
  - vm_compute. reflexivity.
  - reflexivity.
  - vm_compute. repeat constructor; intros [].
Defined.

Lemma tool_failure_becomes_tool_message_witness :
  call_tools c7_host demo_api [c7_unknown; c7_invalid] (mkLoop [] 0%nat []) =
  call_tools c7_host demo_api [c7_invalid]
    (mkLoop
       [mkMessage "tool"
          (Some (json_dumps (JDict [("error", JStr "HomeAssistantError");
                                    ("error_text", JStr "Tool not found")])))
          None]
       1%nat
       [EvTool (tool_input_of c7_unknown) (ToolFailed "HomeAssistantError" "Tool not found")]).
Proof.
  apply (proj1 (tool_failure_becomes_tool_message c7_host) demo_api c7_unknown
           [c7_invalid] (mkLoop [] 0%nat []) "HomeAssistantError" "Tool not found" 1%nat).
  reflexivity.
Defined.

(** Both calls of the reply are made; the second error has no text. *)
Example tool_failures_in_order :
  call_tools c7_host demo_api [c7_unknown; c7_invalid] (mkLoop [] 0%nat []) =
  (None,
   mkLoop
     [mkMessage "tool"
        (Some (json_dumps (JDict [("error", JStr "HomeAssistantError");
                                  ("error_text", JStr "Tool not found")]))) None;
      mkMessage "tool"
        (Some (json_dumps (JDict [("error", JStr "MultipleInvalid")]))) None]
     2%nat
     [EvTool (tool_input_of c7_unknown) (ToolFailed "HomeAssistantError" "Tool not found");
      EvTool (tool_input_of c7_invalid) (ToolFailed "MultipleInvalid" "")]).
Proof. vm_compute. reflexivity. Qed.

(** * Further properties *)

(** ** History Trimmer: bounds and the short-history edge *)

Lemma slice_from_elem {A : Type} (l : list A) (i : Z) (x : A) :
  x ∈ slice_from l i → x ∈ l.
Proof.
  unfold slice_from. intros Hin.
  rewrite <-(take_drop (Z.to_nat (if i <? 0
                                  then Z.max 0 (Z.of_nat (length l) + i)
                                  else Z.min i (Z.of_nat (length l)))) l).
  apply elem_of_app. by right.
Qed.

Lemma slice_from_length {A : Type} (l : list A) (keep : Z) :
  0 ≤ keep →
  Z.of_nat (length (slice_from l (Z.of_nat (length l) - keep))) ≤ keep ∧
  (length (slice_from l (Z.of_nat (length l) - keep)) ≤ length l)%nat.
Proof.
  intros Hkeep. unfold slice_from. rewrite length_drop.
  destruct (Z.ltb_spec (Z.of_nat (length l) - keep) 0); lia.
Qed.

(** X1: Whatever [_trim_history] returns was in the history before: the
    timestamp is unchanged, every message of the result is a message of
    the input, the list grows by at most one element, and when trimming
    is triggered the result holds at most [2 * max_messages + 1]
    messages. *)
Theorem trim_result_bounded (h h' : MessageHistory) (max_messages : Z) :
  _trim_history h max_messages = inr h' →
  timestamp h' = timestamp h ∧
  (∀ m, m ∈ messages h' → m ∈ messages h) ∧
  (length (messages h') ≤ S (length (messages h)))%nat ∧
  (1 ≤ max_messages → max_messages ≤ num_user_messages h →
   Z.of_nat (length (messages h')) ≤ 2 * max_messages + 1).
Proof.
  unfold _trim_history.
  destruct (Z.ltb_spec max_messages 1) as [Hoff|Hon].
  { intros [= <-]. repeat split; [done|lia|lia]. }
  destruct (num_user_messages h >=? max_messages) eqn:Husers.
  - destruct h as [ts [|m0 rest]]; [done|]. cbn [messages timestamp].
    intros [= <-]. cbn [messages timestamp].
    destruct (slice_from_length (m0 :: rest) (2 * max_messages)) as [Hkeep Hlen]; [lia|].
    repeat split.
    + intros m [->|Hin]%elem_of_cons; [apply list_elem_of_here|].
      by apply slice_from_elem in Hin.
    + simpl length in *. lia.
    + intros _ _. simpl length in *. lia.
  - intros [= <-]. repeat split; [done|lia|].
    intros _ Hmany. rewrite Z.geb_leb in Husers. apply Z.leb_gt in Husers. lia.
Qed.

Lemma trim_result_bounded_witness :
  timestamp x9_history = 5 ∧
  (∀ m, m ∈ [c2_system; mkMessage USER (Some "hello?") None] → m ∈ messages x9_history) ∧
  (length [c2_system; mkMessage USER (Some "hello?") None] ≤ 4)%nat ∧
  (1 ≤ 2 → 2 ≤ num_user_messages x9_history →
   Z.of_nat (length [c2_system; mkMessage USER (Some "hello?") None]) ≤ 2 * 2 + 1).
Proof.
  apply (trim_result_bounded x9_history
           (mkHistory 5 [c2_system; mkMessage USER (Some "hello?") None]) 2).
  reflexivity.
Defined.

(** X2: A history shorter than [2 * max_messages] that already holds
    [max_messages] user messages is trimmed all the same: the drop index
    of line 313 is negative, the slice of line 316 counts it from the
    end, and only the last [2 * max_messages - len] messages survive next
    to element 0. *)
Theorem trim_short_history_keeps_tail (h : MessageHistory) (max_messages : Z) :
  1 ≤ max_messages →
  max_messages ≤ num_user_messages h →
  max_messages ≤ Z.of_nat (length (messages h)) < 2 * max_messages →
  ∃ m0,
    head (messages h) = Some m0 ∧
    _trim_history h max_messages =
      inr (mkHistory (timestamp h)
             (m0 :: drop (2 * (length (messages h) - Z.to_nat max_messages))
                      (messages h))) ∧
    Z.of_nat (length (drop (2 * (length (messages h) - Z.to_nat max_messages))
                        (messages h)))
      = 2 * max_messages - Z.of_nat (length (messages h)).
Proof.
  intros Hmax Husers Hlen.
  destruct h as [ts [|m0 rest]]; [simpl in Hlen; lia|].
  exists m0. split; [done|]. cbn [messages timestamp] in *.
  rewrite trim_triggered by done. split.
  - unfold slice_from.
    destruct (Z.ltb_spec (Z.of_nat (length (m0 :: rest)) - 2 * max_messages) 0); [|lia].
    do 3 f_equal. f_equal. simpl length in *. lia.
  - rewrite length_drop. simpl length in *. lia.
Qed.

Lemma trim_short_history_keeps_tail_witness :
  ∃ m0,
    head (messages x9_history) = Some m0 ∧
    _trim_history x9_history 2 =
      inr (mkHistory 5 (m0 :: drop 2 (messages x9_history))) ∧
    Z.of_nat (length (drop 2 (messages x9_history))) = 2 * 2 - 3.
Proof.
  apply (trim_short_history_keeps_tail x9_history 2);
    [lia | vm_compute; discriminate | split; [vm_compute; discriminate | reflexivity]].
Defined.

(** ** History Store: pruning twice *)

(** X3: Pruning at a later clock reading after pruning at an earlier one
    leaves what pruning once at the later reading leaves; in particular
    pruning is idempotent, and it never adds an entry. *)
Theorem prune_twice (ttl now now' : Z) (_history : gmap string MessageHistory) :
  now ≤ now' →
  _prune_old_histories ttl now' (_prune_old_histories ttl now _history) =
    _prune_old_histories ttl now' _history ∧
  _prune_old_histories ttl now (_prune_old_histories ttl now _history) =
    _prune_old_histories ttl now _history ∧
  dom (_prune_old_histories ttl now _history) ⊆ dom _history.
Proof.
  intros Hlater.
  assert (∀ a b, a ≤ b →
          _prune_old_histories ttl b (_prune_old_histories ttl a _history) =
          _prune_old_histories ttl b _history) as Htwice.
  { intros a b Hab. apply map_eq. intros cid. apply option_eq. intros h'.
    rewrite !prune_lookup_Some. split; [tauto|].
    intros [Hin Hfresh]. repeat split; [done|lia|done]. }
  split; [by apply Htwice|]. split; [by apply Htwice|].
  apply dom_filter_subseteq.
Qed.

Lemma prune_twice_witness :
  _prune_old_histories 3600 3700 (_prune_old_histories 3600 3650 c6_store) =
    _prune_old_histories 3600 3700 c6_store ∧
  _prune_old_histories 3600 3650 (_prune_old_histories 3600 3650 c6_store) =
    _prune_old_histories 3600 3650 c6_store ∧
  dom (_prune_old_histories 3600 3650 c6_store) ⊆ dom c6_store.
Proof. apply (prune_twice 3600 3650 3700 c6_store). lia. Defined.

(** ** Agent Loop: what a run of the loop leaves in the trace *)

Section LoopCoverage.

Context {Schema Serializer World : Type} (host : @Host Schema Serializer World).

#[local] Arguments call_tools : simpl never.

Lemma tool_inputs_app (tr1 tr2 : list (@Event Schema Serializer)) :
  tool_inputs (tr1 ++ tr2) = tool_inputs tr1 ++ tool_inputs tr2.
Proof.
  induction tr1 as [|[] tr1 IH]; simpl; [done|done|done|done|].
  by rewrite IH.
Qed.

Lemma requested_tools_app (tr1 tr2 : list (@Event Schema Serializer)) :
  requested_tools (tr1 ++ tr2) = requested_tools tr1 ++ requested_tools tr2.
Proof.
  induction tr1 as [|[o|o|sent [err|rm]|ti o] tr1 IH]; simpl; [done..| |done].
  by rewrite IH, app_assoc.
Qed.

Lemma tool_events_no_chat (evs : list (@Event Schema Serializer)) :
  Forall is_tool_event evs →
  requested_tools evs = [] ∧ ∀ sent o, EvChat sent o ∉ evs.
Proof.
  induction 1 as [|[] evs He _ [IH1 IH2]]; simpl; try done.
  - split; [done|]. intros sent o Hin. inversion Hin.
  - split; [done|]. intros sent o [?|Hin]%elem_of_cons; [done|]. by apply IH2 in Hin.
Qed.

Lemma setup_no_loop_events (tr : list (@Event Schema Serializer)) :
  Forall setup_success tr →
  chat_calls tr = 0%nat ∧ tool_inputs tr = [] ∧ requested_tools tr = [] ∧
  (∀ sent o, EvChat sent o ∉ tr) ∧ (∀ err, EvGetApi (inl err) ∉ tr).
Proof.
  induction 1 as [|e tr He _ (IH1 & IH2 & IH3 & IH4 & IH5)]; simpl.
  - repeat split; try done; intros; intros Hin; inversion Hin.
  - destruct e as [[|]|[|]| |]; try done; repeat split; try done.
    + intros sent o [?|Hin]%elem_of_cons; [done|]. by apply IH4 in Hin.
    + intros err [?|Hin]%elem_of_cons; [done|]. by apply IH5 in Hin.
    + intros sent o [?|Hin]%elem_of_cons; [done|]. by apply IH4 in Hin.
    + intros err [?|Hin]%elem_of_cons; [done|]. by apply IH5 in Hin.
Qed.

Lemma loop_break_events (sent0 : list Message) (rm : Message)
    (llm_api : option (@APIInstance Schema Serializer)) :
  tool_calls rm = None ∨ tool_calls rm = Some [] ∨ llm_api = None →
  (chat_calls [@EvChat Schema Serializer sent0 (inr rm)] ≤ 1)%nat ∧
  tool_inputs [@EvChat Schema Serializer sent0 (inr rm)] = [] ∧
  (∀ sent err, @EvChat Schema Serializer sent (inl err) ∉ [EvChat sent0 (inr rm)]) ∧
  (is_Some llm_api →
   tool_inputs [@EvChat Schema Serializer sent0 (inr rm)] =
   requested_tools [@EvChat Schema Serializer sent0 (inr rm)]) ∧
  (∀ sent o, @EvChat Schema Serializer sent o ∈ [EvChat sent0 (inr rm)] → sent = sent0).
Proof.
  intros Hwhy. simpl. split; [lia|]. split; [done|]. split; [|split].
  - intros sent err Hin. by apply list_elem_of_singleton in Hin.
  - intros [api Hapi]. destruct Hwhy as [-> | [-> | ->]]; done.
  - intros sent o Hin. by apply list_elem_of_singleton in Hin as [= -> _].
Qed.

(** One induction over the iterations for what the later properties
    need: without a registry the loop stops after one call and runs no
    tool; a failed call is the last thing the loop does; with a registry
    the tools run are the tools asked for; and every call is sent the
    messages the loop started with, followed by what it appended. *)
Lemma tool_loop_events (iterations : nat) (model : string) (tool_specs : option (list json))
    (llm_api : option APIInstance) (response_message : option Message)
    (st st' : LoopState) (exit : LoopExit) :
  tool_loop host iterations model tool_specs llm_api response_message st = (exit, st') →
  ∃ evs,
    loop_trace st' = loop_trace st ++ evs ∧
    (llm_api = None → (chat_calls evs ≤ 1)%nat ∧ tool_inputs evs = []) ∧
    (∀ sent err, EvChat sent (inl err) ∈ evs →
       exit = LoopTransportError err ∧ last evs = Some (EvChat sent (inl err))) ∧
    (is_Some llm_api → (∀ e, exit ≠ LoopRaised e) →
       tool_inputs evs = requested_tools evs) ∧
    (∀ sent o, EvChat sent o ∈ evs → ∃ more, sent = loop_messages st ++ more).
Proof.
  revert response_message st.
  induction iterations as [|n IH]; intros response_message st; simpl.
  { intros [= <- <-]. exists []. rewrite app_nil_r.
    split; [done|]. split; [by intros _; simpl; split; [lia|]|].
    split; [intros sent err Hin; inversion Hin|].
    split; [done|]. intros sent o Hin. inversion Hin. }
  destruct (chat host model (loop_messages st) tool_specs (loop_world st))
    as [reply w] eqn:Hchat.
  destruct reply as [err|rm].
  { intros [= <- <-]. simpl. exists [EvChat (loop_messages st) (inl err)].
    split; [done|]. split; [by intros _; simpl; split; [lia|]|].
    split; [|split].
    - intros sent err' Hin. by apply list_elem_of_singleton in Hin as [= -> ->].
    - done.
    - intros sent o Hin. apply list_elem_of_singleton in Hin as [= -> _].
      exists []. by rewrite app_nil_r. }
  assert ((tool_calls rm = None ∨ tool_calls rm = Some [] ∨ llm_api = None) →
          (LoopFinished (Some rm),
             mkLoop (loop_messages st ++ [message_convert rm]) w
               (loop_trace st ++ [EvChat (loop_messages st) (inr rm)])) = (exit, st') →
          ∃ evs,
            loop_trace st' = loop_trace st ++ evs ∧
            (llm_api = None → (chat_calls evs ≤ 1)%nat ∧ tool_inputs evs = []) ∧
            (∀ sent err, EvChat sent (inl err) ∈ evs →
               exit = LoopTransportError err ∧ last evs = Some (EvChat sent (inl err))) ∧
            (is_Some llm_api → (∀ e, exit ≠ LoopRaised e) →
               tool_inputs evs = requested_tools evs) ∧
            (∀ sent o, EvChat sent o ∈ evs → ∃ more, sent = loop_messages st ++ more))
    as Hbreak.
  { intros Hwhy [= <- <-].
    destruct (loop_break_events (loop_messages st) rm llm_api Hwhy)
      as (Hcount & Hnotools & Hnofail & Hasked & Hsent).
    exists [EvChat (loop_messages st) (inr rm)].
    split; [done|]. split; [done|]. split; [|split].
    - intros sent err Hin. by apply Hnofail in Hin.
    - intros Hsome _. by apply Hasked.
    - intros sent o Hin. apply Hsent in Hin as ->. exists []. by rewrite app_nil_r. }
  destruct (tool_calls rm) as [[|c r]|] eqn:Hcalls;
    [apply Hbreak; right; by left| |apply Hbreak; by left].
  destruct llm_api as [api|]; [|apply Hbreak; right; by right].
  clear Hbreak.
  destruct (call_tools host api (c :: r) _) as [[e|] st''] eqn:Htools.
  - intros [= <- <-].
    apply call_tools_extends in Htools as (msgs & tevs & Hm & Ht & Hev & _ & ti & Hin).
    simpl in Hm, Ht. destruct (tool_events_no_chat tevs Hev) as [Hreq Hnochat].
    exists (EvChat (loop_messages st) (inr rm) :: tevs).
    rewrite Ht, <-app_assoc. split; [done|]. split; [done|].
    split; [|split].
    + intros sent err [?|Hbad]%elem_of_cons; [done|]. by apply Hnochat in Hbad.
    + intros _ Hnot. by destruct (Hnot e).
    + intros sent o [[= -> _]|Hbad]%elem_of_cons; [|by apply Hnochat in Hbad].
      exists []. by rewrite app_nil_r.
  - intros Hrest.
    apply call_tools_extends in Htools
      as (msgs & tevs & Hm & Ht & Hev & _ & Hinputs & _ & _).
    simpl in Hm, Ht. destruct (tool_events_no_chat tevs Hev) as [Hreq Hnochat].
    apply IH in Hrest as (evs' & Ht' & _ & Hfail & Hasked & Hsent).
    exists (EvChat (loop_messages st) (inr rm) :: tevs ++ evs').
    rewrite Ht', Ht, <-!app_assoc. split; [done|]. split; [done|].
    split; [|split].
    + intros sent err [?|[Hbad|Hin]%elem_of_app]%elem_of_cons;
        [done|by apply Hnochat in Hbad|].
      destruct (Hfail sent err Hin) as [-> Hlast]. split; [done|].
      change (EvChat (loop_messages st) (inr rm) :: tevs ++ evs')
        with ((EvChat (loop_messages st) (inr rm) :: tevs) ++ evs').
      by rewrite last_app, Hlast.
    + intros Hsome Hnot. simpl. rewrite Hcalls. simpl.
      rewrite tool_inputs_app, requested_tools_app, Hreq, Hinputs.
      by rewrite (Hasked Hsome Hnot).
    + intros sent o [[= -> _]|[Hbad|Hin]%elem_of_app]%elem_of_cons;
        [|by apply Hnochat in Hbad|].
      * exists []. by rewrite app_nil_r.
      * destruct (Hsent sent o Hin) as [more ->]. rewrite Hm, <-!app_assoc.
        by eexists.
Qed.

Lemma run_turn_ran_loop (user_input : ConversationInput) (settings : Conf)
    (conversation_id model : string) (llm_api : option APIInstance)
    (tool_specs : option (list json)) (message_history : MessageHistory)
    (_history : gmap string MessageHistory) (w : World) (tr : list Event) :
  in_hand _history conversation_id message_history →
  ran_loop host user_input _history conversation_id llm_api tr
    (run_turn host user_input settings conversation_id model llm_api tool_specs
       message_history (<[conversation_id := message_history]> _history) w tr).
Proof.
  intros Hhand. unfold run_turn, ran_loop.
  destruct (monotonic host w) as [now w1].
  destruct (trim_never_raises message_history
              (default (DEFAULT_MAX_HISTORY host) (conf_max_history settings)))
    as [trimmed Htrim].
  rewrite Htrim.
  destruct (tool_loop host MAX_TOOL_ITERATIONS model tool_specs llm_api None _)
    as [exit st] eqn:Hloop.
  by exists settings, model, tool_specs, message_history, trimmed, now, w1, exit, st.
Qed.

Lemma resolve_history_cases (user_input : ConversationInput) (settings : Conf)
    (conversation_id model : string) (llm_api : option APIInstance)
    (tool_specs : option (list json)) (user_name : option string)
    (_history : gmap string MessageHistory) (w : World) (tr : list Event) :
  Forall setup_success tr →
  (∀ o, EvRender o ∉ tr) →
  (∃ err pre,
     _history !! conversation_id = None ∧ Forall setup_success pre ∧
     trace (resolve_history host user_input settings conversation_id model llm_api
              tool_specs user_name _history w tr) = pre ++ [EvRender (inl err)]) ∨
  (∃ pre,
     Forall setup_success pre ∧
     (is_Some (_history !! conversation_id) → ∀ o, EvRender o ∉ pre) ∧
     ran_loop host user_input _history conversation_id llm_api pre
       (resolve_history host user_input settings conversation_id model llm_api
          tool_specs user_name _history w tr)).
Proof.
  intros Htr Hnorender. unfold resolve_history.
  destruct (_history !! conversation_id) as [h|] eqn:Hlookup.
  - destruct (monotonic host w) as [now w']. right. exists tr.
    split; [done|]. split; [done|].
    apply run_turn_ran_loop. unfold in_hand. by rewrite Hlookup.
  - destruct (render_prompt host settings user_name _ llm_api w) as [[err|prompt] w'].
    + left. by exists err, tr.
    + destruct (monotonic host w') as [now w'']. right.
      exists (tr ++ [EvRender (inr prompt)]). split; [|split].
      * apply Forall_app_2; by repeat constructor.
      * by intros [? ?].
      * apply run_turn_ran_loop. unfold in_hand. rewrite Hlookup. by eexists.
Qed.

(** The ways through [async_process], with what the loop was run with. *)
Lemma async_process_cases (entry : ConfigEntry) (user_input : ConversationInput)
    (_history : gmap string MessageHistory) (w : World) :
  trace (async_process host entry user_input _history w) = [] ∨
  (∃ err, trace (async_process host entry user_input _history w) = [EvGetApi (inl err)]) ∨
  (∃ err pre,
     _history !! (resolve_conversation_id host user_input w).1 = None ∧
     Forall setup_success pre ∧
     trace (async_process host entry user_input _history w) = pre ++ [EvRender (inl err)]) ∨
  (∃ llm_api pre,
     Forall setup_success pre ∧
     (is_Some (_history !! (resolve_conversation_id host user_input w).1) →
      ∀ o, EvRender o ∉ pre) ∧
     (truthy (conf_llm_hass_api (merge_settings entry)) = false → llm_api = None) ∧
     (truthy (conf_llm_hass_api (merge_settings entry)) = true → is_Some llm_api) ∧
     ran_loop host user_input _history (resolve_conversation_id host user_input w).1
       llm_api pre (async_process host entry user_input _history w)).
Proof.
  unfold async_process.
  generalize (merge_settings entry). intros settings.
  destruct (resolve_conversation_id host user_input w) as [conversation_id w1].
  cbn [fst].
  destruct (conf_model settings) as [model|]; [|by left].
  destruct (truthy (conf_llm_hass_api settings)).
  - destruct (async_get_api host _ _ w1) as [[err|llm_api] w2]; [right; left; by eexists|].
    destruct (resolve_user_name host user_input w2) as [user_name w3].
    destruct (resolve_history_cases user_input settings conversation_id model (Some llm_api)
                (Some (map (λ tool, _format_tool host tool (custom_serializer llm_api))
                         (tools llm_api)))
                user_name _history w3 [EvGetApi (inr llm_api)])
      as [(err & pre & Hnone & Hpre & Htrace)|(pre & Hpre & Hnorender & Hran)].
    + by repeat constructor.
    + intros o [?|Hin]%elem_of_cons; [done|inversion Hin].
    + right. right. left. by exists err, pre.
    + right. right. right. exists (Some llm_api), pre. by repeat split.
  - destruct (resolve_user_name host user_input w1) as [user_name w2].
    destruct (resolve_history_cases user_input settings conversation_id model None None
                user_name _history w2 [])
      as [(err & pre & Hnone & Hpre & Htrace)|(pre & Hpre & Hnorender & Hran)].
    + constructor.
    + intros o Hin. inversion Hin.
    + right. right. left. by exists err, pre.
    + right. right. right. exists None, pre.
      split; [done|]. split; [done|]. split; [done|]. split; [intros [=]|done].
Qed.

End LoopCoverage.

(** ** Agent Loop: what every turn does *)

Section TurnCoverage.

Context {Schema Serializer World : Type} (host : @Host Schema Serializer World).

#[local] Arguments call_tools : simpl never.

(** X4: Whatever the model server, the tools and the configuration do, a
    turn calls the model server at most ten times. *)
Theorem model_calls_bounded (entry : ConfigEntry) (user_input : ConversationInput)
    (_history : gmap string MessageHistory) (w : World) :
  (chat_calls (trace (async_process host entry user_input _history w)) ≤ 10)%nat.
Proof.
  destruct (async_process_shape host entry user_input _history w)
    as [w'|err' w'|err' w' tr Hnone Htr|settings model llm_api tool_specs mh0 w' tr Htr Hhand];
    cbn [trace]; [simpl; lia|simpl; lia| |].
  - rewrite chat_calls_app. destruct (setup_no_loop_events tr Htr) as [-> _]. simpl. lia.
  - destruct (run_turn_spec host user_input settings
                (resolve_conversation_id host user_input w).1 model llm_api tool_specs mh0
                (<[(resolve_conversation_id host user_input w).1 := mh0]> _history) w' tr)
      as (now & trimmed & exit & msgs & evs & w'' & _ & _ & Hcount & _ & ->).
    cbn [trace]. rewrite chat_calls_app.
    destruct (setup_no_loop_events tr Htr) as [-> _].
    unfold MAX_TOOL_ITERATIONS in Hcount. lia.
Qed.

(** X5: Without a tool registry in the settings the model server is called
    at most once and no tool is invoked, tool calls in the reply or not. *)
Theorem no_registry_no_tool_calls (entry : ConfigEntry) (user_input : ConversationInput)
    (_history : gmap string MessageHistory) (w : World) :
  truthy (conf_llm_hass_api (merge_settings entry)) = false →
  (chat_calls (trace (async_process host entry user_input _history w)) ≤ 1)%nat ∧
  tool_inputs (trace (async_process host entry user_input _history w)) = [].
Proof.
  intros Hoff.
  destruct (async_process_cases host entry user_input _history w)
    as [->|[[err ->]|[(err & pre & _ & Hpre & ->)|(llm_api & pre & Hpre & _ & Hnone & _ & Hran)]]];
    [simpl; split; [lia|done]..| |].
  - rewrite chat_calls_app, tool_inputs_app.
    destruct (setup_no_loop_events pre Hpre) as (-> & -> & _). simpl. split; [lia|done].
  - destruct Hran as (settings & model & tool_specs & mh & trimmed & now & w1 & exit & st
                      & _ & _ & Hloop & ->).
    cbn [trace]. apply tool_loop_events in Hloop as (evs & -> & Hplain & _).
    cbn [loop_trace]. rewrite chat_calls_app, tool_inputs_app.
    destruct (setup_no_loop_events pre Hpre) as (-> & -> & _).
    destruct (Hplain (Hnone Hoff)) as [Hcount ->]. simpl. split; [lia|done].
Qed.

(** X6: A turn that ends with a spoken answer speaks the [content] of the
    last reply of the model server, in the language of the input, and
    returns the conversation id of the turn. *)
Theorem spoken_answer_is_last_content (entry : ConfigEntry) (user_input : ConversationInput)
    (_history : gmap string MessageHistory) (w : World)
    (r : ConversationResult) (speech : string) :
  result (async_process host entry user_input _history w) = Returned r →
  response_body (response r) = Speech speech →
  ∃ response_message,
    last_chat (trace (async_process host entry user_input _history w)) None =
      Some (inr response_message) ∧
    content response_message = Some speech ∧
    result_conversation_id r = Some (resolve_conversation_id host user_input w).1 ∧
    response_language (response r) = language user_input.
Proof.
  destruct (async_process_shape host entry user_input _history w)
    as [w'|err' w'|err' w' tr Hnone Htr|settings model llm_api tool_specs mh0 w' tr Htr Hhand];
    cbn [trace result]; [done|by intros [= <-]|by intros [= <-]|].
  destruct (run_turn_spec host user_input settings
              (resolve_conversation_id host user_input w).1 model llm_api tool_specs mh0
              (<[(resolve_conversation_id host user_input w).1 := mh0]> _history) w' tr)
    as (now & trimmed & exit & msgs & evs & w'' & _ & _ & _ & Hexit & ->).
  cbn [trace result]. rewrite last_chat_app.
  destruct (setup_no_chat tr None Htr) as [-> _].
  destruct exit as [[last|]|err|e]; simpl; [|done|by intros [= <-]|done].
  destruct (content last) as [spoken|] eqn:Hcontent; [|done].
  intros [= <-]. simpl. intros [= <-].
  exists last. simpl in Hexit. by destruct Hexit as [-> _].
Qed.

(** X7: A call to the model server that fails is the last thing the turn
    does: no retry, no further call; the turn returns the error response
    for it, carrying the conversation id of the turn. *)
Theorem transport_failure_ends_turn (entry : ConfigEntry) (user_input : ConversationInput)
    (_history : gmap string MessageHistory) (w : World)
    (sent : list Message) (err : string) :
  EvChat sent (inl err) ∈ trace (async_process host entry user_input _history w) →
  last (trace (async_process host entry user_input _history w)) =
    Some (EvChat sent (inl err)) ∧
  result (async_process host entry user_input _history w) =
    error_result user_input
      ("Sorry, I had a problem talking to the Ollama server: " +:+ err)
      (Some (resolve_conversation_id host user_input w).1).
Proof.
  destruct (async_process_cases host entry user_input _history w)
    as [->|[[err' ->]|[(err' & pre & _ & Hpre & ->)|(llm_api & pre & Hpre & _ & _ & _ & Hran)]]].
  - intros Hin. inversion Hin.
  - intros Hin. by apply list_elem_of_singleton in Hin.
  - intros [Hin|Hin]%elem_of_app.
    + by apply (setup_no_loop_events pre Hpre) in Hin.
    + by apply list_elem_of_singleton in Hin.
  - destruct Hran as (settings & model & tool_specs & mh & trimmed & now & w1 & exit & st
                      & _ & _ & Hloop & ->).
    cbn [trace result]. apply tool_loop_events in Hloop as (evs & -> & _ & Hfail & _).
    cbn [loop_trace]. intros [Hin|Hin]%elem_of_app.
    + by apply (setup_no_loop_events pre Hpre) in Hin.
    + destruct (Hfail sent err Hin) as [-> Hlast]. by rewrite last_app, Hlast.
Qed.

(** X8: A failed acquisition of the tool registry is the only thing the turn
    did: the response carries the error and the conversation id as the
    caller gave it, the history map is untouched, and neither the
    renderer nor the model server was called. *)
Theorem registry_failure_changes_nothing (entry : ConfigEntry)
    (user_input : ConversationInput) (_history : gmap string MessageHistory) (w : World)
    (err : string) :
  EvGetApi (inl err) ∈ trace (async_process host entry user_input _history w) →
  trace (async_process host entry user_input _history w) = [EvGetApi (inl err)] ∧
  result (async_process host entry user_input _history w) =
    error_result user_input ("Error preparing LLM API: " +:+ err)
      (input_conversation_id user_input) ∧
  history_after (async_process host entry user_input _history w) = _history.
Proof.
  destruct (async_process_shape host entry user_input _history w)
    as [w'|err' w'|err' w' tr Hnone Htr|settings model llm_api tool_specs mh0 w' tr Htr Hhand];
    cbn [trace result history_after].
  - intros Hin. inversion Hin.
  - intros Hin. by apply list_elem_of_singleton in Hin as [= ->].
  - intros [Hin|Hin]%elem_of_app.
    + by apply (setup_no_loop_events tr Htr) in Hin.
    + by apply list_elem_of_singleton in Hin.
  - destruct (run_turn_spec host user_input settings
                (resolve_conversation_id host user_input w).1 model llm_api tool_specs mh0
                (<[(resolve_conversation_id host user_input w).1 := mh0]> _history) w' tr)
      as (now & trimmed & exit & msgs & evs & w'' & _ & Hev & _ & _ & ->).
    cbn [trace]. intros [Hin|Hin]%elem_of_app.
    + by apply (setup_no_loop_events tr Htr) in Hin.
    + rewrite Forall_forall in Hev. by apply Hev in Hin.
Qed.

(** X9: A turn leaves the histories of the other conversations alone: what
    is stored under another id afterwards is what was stored before (the
    turn can only evict it), and the only id a turn can add is its own. *)
Theorem other_conversations_untouched (entry : ConfigEntry)
    (user_input : ConversationInput) (_history : gmap string MessageHistory) (w : World) :
  (∀ cid h,
     cid ≠ (resolve_conversation_id host user_input w).1 →
     history_after (async_process host entry user_input _history w) !! cid = Some h →
     _history !! cid = Some h) ∧
  dom (history_after (async_process host entry user_input _history w))
    ⊆ {[(resolve_conversation_id host user_input w).1]} ∪ dom _history.
Proof.
  assert (∀ cid h,
     cid ≠ (resolve_conversation_id host user_input w).1 →
     history_after (async_process host entry user_input _history w) !! cid = Some h →
     _history !! cid = Some h) as Hother.
  { intros cid h Hne.
    destruct (async_process_shape host entry user_input _history w)
      as [w'|err' w'|err' w' tr Hnone Htr|settings model llm_api tool_specs mh0 w' tr Htr Hhand];
      [done..|].
    destruct (run_turn_spec host user_input settings
                (resolve_conversation_id host user_input w).1 model llm_api tool_specs mh0
                (<[(resolve_conversation_id host user_input w).1 := mh0]> _history) w' tr)
      as (now & trimmed & exit & msgs & evs & w'' & _ & _ & _ & _ & ->).
    cbn [history_after]. unfold write_back. rewrite lookup_alter_ne by done.
    intros Hkept. apply prune_lookup_Some in Hkept as [Hkept _].
    by rewrite lookup_insert_ne in Hkept. }
  split; [done|].
  intros cid [h Hin]%elem_of_dom.
  destruct (decide (cid = (resolve_conversation_id host user_input w).1)) as [->|Hne].
  - apply elem_of_union. left. by apply elem_of_singleton.
  - apply elem_of_union. right. apply elem_of_dom. exists h. by apply Hother.
Qed.

(** X10: With a tool registry configured, and no tool call ending in an
    exception that line 276 does not catch, the tools a turn invokes are
    the tools the model server asked for, each once and in the order of
    the replies; the calls of the last reply before the cap included. *)
Theorem requested_tools_are_run (entry : ConfigEntry) (user_input : ConversationInput)
    (_history : gmap string MessageHistory) (w : World) :
  truthy (conf_llm_hass_api (merge_settings entry)) = true →
  Forall (λ ev, ¬ uncaught ev) (trace (async_process host entry user_input _history w)) →
  tool_inputs (trace (async_process host entry user_input _history w)) =
  requested_tools (trace (async_process host entry user_input _history w)).
Proof.
  intros Hon.
  destruct (async_process_cases host entry user_input _history w)
    as [->|[[err ->]|[(err & pre & _ & Hpre & ->)|(llm_api & pre & Hpre & _ & _ & Hsome & Hran)]]];
    [done|done| |].
  - intros _. rewrite tool_inputs_app, requested_tools_app.
    by destruct (setup_no_loop_events pre Hpre) as (_ & -> & -> & _).
  - destruct Hran as (settings & model & tool_specs & mh & trimmed & now & w1 & exit & st
                      & _ & _ & Hloop & ->).
    cbn [trace]. intros Hcaught.
    pose proof Hloop as Hloop'.
    apply tool_loop_events in Hloop as (evs & Ht & _ & _ & Hasked & _).
    apply tool_loop_extends in Hloop' as (msgs & evs' & _ & Ht' & _ & _ & Hexit).
    rewrite Ht in *. cbn [loop_trace] in *. apply app_inv_head in Ht' as <-.
    rewrite tool_inputs_app, requested_tools_app.
    destruct (setup_no_loop_events pre Hpre) as (_ & -> & -> & _). simpl.
    apply Hasked; [by apply Hsome|].
    intros e ->. destruct Hexit as [tool_input Hin].
    apply Forall_app in Hcaught as [_ Hcaught].
    rewrite Forall_forall in Hcaught. by apply Hcaught in Hin.
Qed.

(** X11: Every call to the model server is sent the caller's new message,
    behind a list that starts with element 0 of the stored history, or
    with the system prompt of the history the turn has just created. *)
Theorem model_sees_prompt_and_user_text (entry : ConfigEntry)
    (user_input : ConversationInput) (_history : gmap string MessageHistory) (w : World)
    (sent : list Message) (outcome : string + Message) :
  EvChat sent outcome ∈ trace (async_process host entry user_input _history w) →
  user_message user_input ∈ sent ∧
  match _history !! (resolve_conversation_id host user_input w).1 with
  | Some h => messages h ≠ [] → head sent = head (messages h)
  | None => ∃ prompt, head sent = Some (mkMessage SYSTEM (Some prompt) None)
  end.
Proof.
  destruct (async_process_cases host entry user_input _history w)
    as [->|[[err ->]|[(err & pre & _ & Hpre & ->)|(llm_api & pre & Hpre & _ & _ & _ & Hran)]]].
  - intros Hin. inversion Hin.
  - intros Hin. by apply list_elem_of_singleton in Hin.
  - intros [Hin|Hin]%elem_of_app.
    + by apply (setup_no_loop_events pre Hpre) in Hin.
    + by apply list_elem_of_singleton in Hin.
  - destruct Hran as (settings & model & tool_specs & mh & trimmed & now & w1 & exit & st
                      & Hhand & Htrim & Hloop & ->).
    cbn [trace]. apply tool_loop_events in Hloop as (evs & -> & _ & _ & _ & Hsent).
    cbn [loop_trace loop_messages] in *. intros [Hin|Hin]%elem_of_app.
    { by apply (setup_no_loop_events pre Hpre) in Hin. }
    destruct (Hsent sent outcome Hin) as [more ->]. split.
    + apply elem_of_app. left. apply elem_of_app. right. apply list_elem_of_here.
    + apply trim_keeps_head in Htrim as [Hhead _]. unfold in_hand in Hhand.
      destruct (_history !! (resolve_conversation_id host user_input w).1) as [h|].
      * intros Hnonempty. rewrite <-!app_assoc, head_app, Hhead, Hhand.
        destruct (messages h); done.
      * destruct Hhand as [prompt Hhand]. exists prompt.
        by rewrite <-!app_assoc, head_app, Hhead, Hhand.
Qed.

(** X12: The system prompt is rendered for a conversation id without a
    stored history only: a turn on an existing conversation never calls
    the template renderer. *)
Theorem prompt_rendered_for_new_conversation_only (entry : ConfigEntry)
    (user_input : ConversationInput) (_history : gmap string MessageHistory) (w : World)
    (outcome : string + string) :
  EvRender outcome ∈ trace (async_process host entry user_input _history w) →
  _history !! (resolve_conversation_id host user_input w).1 = None.
Proof.
  destruct (async_process_cases host entry user_input _history w)
    as [->|[[err ->]|[(err & pre & Hnone & Hpre & ->)|(llm_api & pre & Hpre & Hold & _ & _ & Hran)]]];
    [|by intros Hin%list_elem_of_singleton|done|].
  - intros Hin. inversion Hin.
  - destruct Hran as (settings & model & tool_specs & mh & trimmed & now & w1 & exit & st
                      & _ & _ & Hloop & ->).
    cbn [trace].
    apply tool_loop_extends in Hloop as (msgs & evs & _ & Ht & Hev & _).
    rewrite Ht. cbn [loop_trace]. intros Hin.
    destruct (_history !! (resolve_conversation_id host user_input w).1) as [h|]; [|done].
    apply elem_of_app in Hin as [Hin|Hin].
    + by apply Hold in Hin.
    + rewrite Forall_forall in Hev. by apply Hev in Hin.
Qed.

(** X13: No rollback: once the model server has been called in a turn, the
    history stored for the conversation afterwards holds the caller's
    message, however the turn ended. *)
Theorem user_message_is_kept (entry : ConfigEntry) (user_input : ConversationInput)
    (_history : gmap string MessageHistory) (w : World)
    (sent : list Message) (outcome : string + Message) (h : MessageHistory) :
  EvChat sent outcome ∈ trace (async_process host entry user_input _history w) →
  history_after (async_process host entry user_input _history w)
    !! (resolve_conversation_id host user_input w).1 = Some h →
  user_message user_input ∈ messages h.
Proof.
  destruct (async_process_cases host entry user_input _history w)
    as [->|[[err ->]|[(err & pre & _ & Hpre & ->)|(llm_api & pre & Hpre & _ & _ & _ & Hran)]]].
  - intros Hin. inversion Hin.
  - intros Hin. by apply list_elem_of_singleton in Hin.
  - intros [Hin|Hin]%elem_of_app.
    + by apply (setup_no_loop_events pre Hpre) in Hin.
    + by apply list_elem_of_singleton in Hin.
  - destruct Hran as (settings & model & tool_specs & mh & trimmed & now & w1 & exit & st
                      & _ & _ & Hloop & ->).
    cbn [trace history_after]. intros _. unfold write_back. rewrite lookup_alter_eq.
    destruct (_prune_old_histories _ now _ !! _) as [kept|]; [|done].
    intros [= <-]. cbn [messages].
    apply tool_loop_extends in Hloop as (msgs & evs & -> & _).
    cbn [loop_messages]. apply elem_of_app. left. apply elem_of_app. right.
    apply list_elem_of_here.
Qed.

End TurnCoverage.

(** ** Agent Loop: the further properties on the scenarios *)

Lemma no_registry_no_tool_calls_witness :
  (chat_calls (trace (async_process c4_host plain_entry demo_input ∅ 0%nat)) ≤ 1)%nat ∧
  tool_inputs (trace (async_process c4_host plain_entry demo_input ∅ 0%nat)) = [].
Proof.
  apply (no_registry_no_tool_calls c4_host plain_entry demo_input ∅ 0%nat).
  reflexivity.
Defined.

Lemma spoken_answer_is_last_content_witness :
  ∃ response_message,
    last_chat (trace (async_process c8_host demo_entry demo_input ∅ 0%nat)) None =
      Some (inr response_message) ∧
    content response_message = Some "Done." ∧
    Some "01JBULID" = Some (resolve_conversation_id c8_host demo_input 0%nat).1 ∧
    "en" = language demo_input.
Proof.
  apply (spoken_answer_is_last_content c8_host demo_entry demo_input ∅ 0%nat
           (mkResult (mkIntentResponse "en" (Speech "Done.")) (Some "01JBULID")) "Done.").
  - vm_compute. reflexivity.
  - reflexivity.
Defined.

Lemma transport_failure_ends_turn_witness :
  last (trace (async_process x4_host demo_entry demo_input ∅ 0%nat)) =
    Some (EvChat demo_sent (inl "connection refused")) ∧
  result (async_process x4_host demo_entry demo_input ∅ 0%nat) =
    error_result demo_input
      "Sorry, I had a problem talking to the Ollama server: connection refused"
      (Some "01JBULID").
Proof.
  apply (transport_failure_ends_turn x4_host demo_entry demo_input ∅ 0%nat demo_sent
           "connection refused").
  vm_compute. apply list_elem_of_further, list_elem_of_further, list_elem_of_here.
Defined.

Lemma registry_failure_changes_nothing_witness :
  trace (async_process c1_host demo_entry demo_input kitchen_store 0%nat) =
    [EvGetApi (inl "API assist not found")] ∧
  result (async_process c1_host demo_entry demo_input kitchen_store 0%nat) =
    error_result demo_input "Error preparing LLM API: API assist not found" None ∧
  history_after (async_process c1_host demo_entry demo_input kitchen_store 0%nat) =
    kitchen_store.
Proof.
  apply (registry_failure_changes_nothing c1_host demo_entry demo_input kitchen_store 0%nat
           "API assist not found").
  apply list_elem_of_here.
Defined.

Lemma requested_tools_are_run_witness :
  tool_inputs (trace (async_process x10_host demo_entry demo_input ∅ 0%nat)) =
  requested_tools (trace (async_process x10_host demo_entry demo_input ∅ 0%nat)).
Proof.
  apply (requested_tools_are_run x10_host demo_entry demo_input ∅ 0%nat).
  - reflexivity.
  - vm_compute. repeat constructor; intros [].
Defined.

(** One tool call was asked for, one was made, and the answer came with
    the second call to the model server. *)
Example one_tool_round_trip :
  tool_inputs (trace (async_process x10_host demo_entry demo_input ∅ 0%nat)) =
    [mkToolInput "HassTurnOn" (JDict [("name", JStr "kitchen")])] ∧
  chat_calls (trace (async_process x10_host demo_entry demo_input ∅ 0%nat)) = 2%nat ∧
  result (async_process x10_host demo_entry demo_input ∅ 0%nat) =
    Returned (mkResult (mkIntentResponse "en" (Speech "Done.")) (Some "01JBULID")).
Proof. repeat split; vm_compute; reflexivity. Qed.

Lemma model_sees_prompt_and_user_text_witness :
  user_message followup_input
    ∈ [c2_system; mkMessage USER (Some "turn on the kitchen light") None; demo_answer;
       user_message followup_input] ∧
  match kitchen_store !! (resolve_conversation_id c8_host followup_input 0%nat).1 with
  | Some h =>
      messages h ≠ [] →
      head [c2_system; mkMessage USER (Some "turn on the kitchen light") None; demo_answer;
            user_message followup_input] = head (messages h)
  | None =>
      ∃ prompt,
        head [c2_system; mkMessage USER (Some "turn on the kitchen light") None;
              demo_answer; user_message followup_input] =
        Some (mkMessage SYSTEM (Some prompt) None)
  end.
Proof.
  apply (model_sees_prompt_and_user_text c8_host demo_entry followup_input kitchen_store
           0%nat _ (inr demo_answer)).
  vm_compute. apply list_elem_of_further, list_elem_of_here.
Defined.

Lemma prompt_rendered_for_new_conversation_only_witness :
  (∅ : gmap string MessageHistory) !! (resolve_conversation_id c8_host demo_input 0%nat).1
    = None.
Proof.
  apply (prompt_rendered_for_new_conversation_only c8_host demo_entry demo_input ∅ 0%nat
           (inr ("You are a voice assistant." +:+
                 String (ascii_of_N 10) "Call the tools to control the home."))).
  vm_compute. apply list_elem_of_further, list_elem_of_here.
Defined.

(** A follow-up turn on a stored conversation renders nothing. *)
Example followup_renders_nothing :
  trace (async_process c8_host demo_entry followup_input kitchen_store 0%nat) =
    [EvGetApi (inr demo_api);
     EvChat [c2_system; mkMessage USER (Some "turn on the kitchen light") None;
             demo_answer; user_message followup_input]
       (inr demo_answer)].
Proof. vm_compute. reflexivity. Qed.

Lemma user_message_is_kept_witness :
  user_message demo_input ∈ messages (mkHistory 3 demo_sent).
Proof.
  apply (user_message_is_kept x4_host demo_entry demo_input ∅ 0%nat demo_sent
           (inl "connection refused") (mkHistory 3 demo_sent)).
  - vm_compute. apply list_elem_of_further, list_elem_of_further, list_elem_of_here.
  - vm_compute. reflexivity.
Defined.

(** ** Agent Loop: what a turn stores for its own conversation *)

Section OwnHistory.

Context {Schema Serializer World : Type} (host : @Host Schema Serializer World).

#[local] Arguments call_tools : simpl never.

(** A history that holds the system prompt only is never trimmed. *)
Lemma trim_new_history (now : Z) (prompt : string) (max_messages : Z) :
  _trim_history (mkHistory now [mkMessage SYSTEM (Some prompt) None]) max_messages =
  inr (mkHistory now [mkMessage SYSTEM (Some prompt) None]).
Proof.
  destruct (Z.lt_ge_cases max_messages 1) as [Hoff|Hon].
  - by apply trim_unbounded.
  - apply trim_below_threshold.
    change (num_user_messages (mkHistory now [mkMessage SYSTEM (Some prompt) None])) with 0.
    lia.
Qed.

Lemma resolve_history_store (user_input : ConversationInput) (settings : Conf)
    (conversation_id model : string) (llm_api : option APIInstance)
    (tool_specs : option (list json)) (user_name : option string)
    (_history : gmap string MessageHistory) (w : World) (tr : list Event)
    (h' : MessageHistory) :
  history_after (resolve_history host user_input settings conversation_id model llm_api
                   tool_specs user_name _history w tr) !! conversation_id = Some h' →
  match _history !! conversation_id with
  | Some h =>
      ∃ trimmed more,
        _trim_history (mkHistory (timestamp h') (messages h))
          (default (DEFAULT_MAX_HISTORY host) (conf_max_history settings)) = inr trimmed ∧
        messages h' = messages trimmed ++ user_message user_input :: more
  | None =>
      ∃ prompt more,
        messages h' = mkMessage SYSTEM (Some prompt) None :: user_message user_input :: more
  end.
Proof.
  unfold resolve_history.
  destruct (_history !! conversation_id) as [h|] eqn:Hlookup.
  - destruct (monotonic host w) as [now w'].
    destruct (run_turn_spec host user_input settings conversation_id model llm_api
                tool_specs (mkHistory now (messages h))
                (<[conversation_id := mkHistory now (messages h)]> _history) w' tr)
      as (now' & trimmed & exit & msgs & evs & w'' & Htrim & _ & _ & _ & ->).
    cbn [history_after]. unfold write_back. rewrite lookup_alter_eq.
    destruct (_prune_old_histories _ now' _ !! _) as [kept|]; [|done].
    intros [= <-]. cbn [messages timestamp].
    pose proof (trim_keeps_head _ _ _ Htrim) as [_ Hts]. cbn [timestamp] in Hts.
    rewrite Hts. by exists trimmed, msgs.
  - destruct (render_prompt host settings user_name _ llm_api w) as [[err|prompt] w'].
    + cbn [history_after]. by rewrite Hlookup.
    + destruct (monotonic host w') as [now w''].
      destruct (run_turn_spec host user_input settings conversation_id model llm_api
                  tool_specs (mkHistory now [mkMessage SYSTEM (Some prompt) None])
                  (<[conversation_id := mkHistory now [mkMessage SYSTEM (Some prompt) None]]>
                     _history) w'' (tr ++ [EvRender (inr prompt)]))
        as (now' & trimmed & exit & msgs & evs & w''' & Htrim & _ & _ & _ & ->).
      cbn [history_after]. unfold write_back. rewrite lookup_alter_eq.
      destruct (_prune_old_histories _ now' _ !! _) as [kept|]; [|done].
      intros [= <-]. cbn [messages].
      rewrite trim_new_history in Htrim. injection Htrim as <-.
      by exists prompt, msgs.
Qed.

(** X14: What a turn does to the stored history of its own conversation:
    either nothing (the turn ended before the history was looked up), or
    the stored messages are trimmed for the configured maximum (options
    over data, [DEFAULT_MAX_HISTORY] otherwise) and the caller's message
    and what the loop appended follow.  In particular with a maximum
    below 1 the old messages are a prefix of the new ones. *)
Theorem own_history_trimmed_then_extended (entry : ConfigEntry)
    (user_input : ConversationInput) (_history : gmap string MessageHistory) (w : World)
    (h h' : MessageHistory) :
  _history !! (resolve_conversation_id host user_input w).1 = Some h →
  history_after (async_process host entry user_input _history w)
    !! (resolve_conversation_id host user_input w).1 = Some h' →
  (h' = h ∨
   ∃ trimmed more,
     _trim_history (mkHistory (timestamp h') (messages h))
       (default (DEFAULT_MAX_HISTORY host) (conf_max_history (merge_settings entry)))
       = inr trimmed ∧
     messages h' = messages trimmed ++ user_message user_input :: more) ∧
  (default (DEFAULT_MAX_HISTORY host) (conf_max_history (merge_settings entry)) < 1 →
   messages h `prefix_of` messages h').
Proof.
  intros Hold Hnew.
  assert (h' = h ∨
   ∃ trimmed more,
     _trim_history (mkHistory (timestamp h') (messages h))
       (default (DEFAULT_MAX_HISTORY host) (conf_max_history (merge_settings entry)))
       = inr trimmed ∧
     messages h' = messages trimmed ++ user_message user_input :: more) as Hcases.
  { revert Hold Hnew. unfold async_process.
    generalize (merge_settings entry). intros settings.
    destruct (resolve_conversation_id host user_input w) as [conversation_id w1].
    cbn [fst]. intros Hold.
    destruct (conf_model settings) as [model|];
      [|cbn [history_after]; left; congruence].
    destruct (truthy (conf_llm_hass_api settings)).
    - destruct (async_get_api host _ _ w1) as [[err|llm_api] w2];
        [cbn [history_after]; left; congruence|].
      destruct (resolve_user_name host user_input w2) as [user_name w3].
      intros Hnew. apply resolve_history_store in Hnew. rewrite Hold in Hnew. by right.
    - destruct (resolve_user_name host user_input w1) as [user_name w2].
      intros Hnew. apply resolve_history_store in Hnew. rewrite Hold in Hnew. by right. }
  split; [done|]. intros Hoff.
  destruct Hcases as [->|(trimmed & more & Htrim & ->)]; [done|].
  rewrite trim_unbounded in Htrim by done. injection Htrim as <-.
  cbn [messages]. by eexists.
Qed.

(** X15: The first turn of a conversation stores the system prompt, then the
    caller's message, then what the loop appended, whatever the
    configured maximum. *)
Theorem new_history_starts_with_prompt_and_user_text (entry : ConfigEntry)
    (user_input : ConversationInput) (_history : gmap string MessageHistory) (w : World)
    (h' : MessageHistory) :
  _history !! (resolve_conversation_id host user_input w).1 = None →
  history_after (async_process host entry user_input _history w)
    !! (resolve_conversation_id host user_input w).1 = Some h' →
  ∃ prompt more,
    messages h' = mkMessage SYSTEM (Some prompt) None :: user_message user_input :: more.
Proof.
  unfold async_process.
  generalize (merge_settings entry). intros settings.
  destruct (resolve_conversation_id host user_input w) as [conversation_id w1].
  cbn [fst]. intros Hold.
  destruct (conf_model settings) as [model|];
    [|cbn [history_after]; congruence].
  destruct (truthy (conf_llm_hass_api settings)).
  - destruct (async_get_api host _ _ w1) as [[err|llm_api] w2];
      [cbn [history_after]; congruence|].
    destruct (resolve_user_name host user_input w2) as [user_name w3].
    intros Hnew. apply resolve_history_store in Hnew. by rewrite Hold in Hnew.
  - destruct (resolve_user_name host user_input w1) as [user_name w2].
    intros Hnew. apply resolve_history_store in Hnew. by rewrite Hold in Hnew.
Qed.

End OwnHistory.

Lemma own_history_trimmed_then_extended_witness :
  (mkHistory 1 [c2_system; mkMessage USER (Some "turn on the kitchen light") None;
                demo_answer; user_message followup_input; demo_answer]
     = mkHistory 0 [c2_system; mkMessage USER (Some "turn on the kitchen light") None;
                    demo_answer] ∨
   ∃ trimmed more,
     _trim_history
       (mkHistory 1 [c2_system; mkMessage USER (Some "turn on the kitchen light") None;
                     demo_answer])
       (default (DEFAULT_MAX_HISTORY c8_host) (conf_max_history (merge_settings demo_entry)))
       = inr trimmed ∧
     [c2_system; mkMessage USER (Some "turn on the kitchen light") None;
      demo_answer; user_message followup_input; demo_answer]
       = messages trimmed ++ user_message followup_input :: more) ∧
  (default (DEFAULT_MAX_HISTORY c8_host) (conf_max_history (merge_settings demo_entry)) < 1 →
   [c2_system; mkMessage USER (Some "turn on the kitchen light") None; demo_answer]
     `prefix_of` [c2_system; mkMessage USER (Some "turn on the kitchen light") None;
                  demo_answer; user_message followup_input; demo_answer]).
Proof.
  apply (own_history_trimmed_then_extended c8_host demo_entry followup_input kitchen_store
           0%nat
           (mkHistory 0 [c2_system; mkMessage USER (Some "turn on the kitchen light") None;
                         demo_answer])
           (mkHistory 1 [c2_system; mkMessage USER (Some "turn on the kitchen light") None;
                         demo_answer; user_message followup_input; demo_answer])).
  - vm_compute. reflexivity.
  - vm_compute. reflexivity.
Defined.

Lemma new_history_starts_with_prompt_and_user_text_witness :
  ∃ prompt more,
    messages (mkHistory 3 (demo_sent ++ [demo_answer])) =
    mkMessage SYSTEM (Some prompt) None :: user_message demo_input :: more.
Proof.
  apply (new_history_starts_with_prompt_and_user_text c8_host demo_entry demo_input ∅ 0%nat
           (mkHistory 3 (demo_sent ++ [demo_answer]))).
  - reflexivity.
  - vm_compute. reflexivity.
Defined.

(** ** Agent Loop: the exceptions that leave a turn *)

Section Exceptions.

Context {Schema Serializer World : Type} (host : @Host Schema Serializer World).

Lemma call_tools_raise (api : APIInstance) (calls : list ToolCall) (st st' : LoopState)
    (r : option exn) :
  call_tools host api calls st = (r, st') →
  ∃ evs,
    loop_trace st' = loop_trace st ++ evs ∧
    (∀ sent o, EvChat sent o ∉ evs) ∧
    ∀ tool_input e, EvTool tool_input (ToolRaised e) ∈ evs →
      r = Some e ∧ last evs = Some (EvTool tool_input (ToolRaised e)).
Proof.
  revert st. induction calls as [|tool_call rest IH]; intros st; simpl.
  { intros [= <- <-]. exists []. rewrite app_nil_r. split; [done|]. split.
    - intros sent o Hin. inversion Hin.
    - intros ti e Hin. inversion Hin. }
  destruct (async_call_tool host api _ (loop_world st)) as [outcome w] eqn:Hcall.
  destruct outcome as [tool_response|type_name message|e0].
  - intros Hrest. apply IH in Hrest as (evs & Ht & Hnochat & Hraise). simpl in Ht.
    eexists (_ :: evs). rewrite Ht, <-app_assoc. split; [done|]. split.
    + intros sent o [?|Hin]%elem_of_cons; [done|]. by apply Hnochat in Hin.
    + intros ti e [?|Hin]%elem_of_cons; [done|].
      destruct (Hraise ti e Hin) as [-> Hlast]. split; [done|].
      by rewrite last_cons, Hlast.
  - intros Hrest. apply IH in Hrest as (evs & Ht & Hnochat & Hraise). simpl in Ht.
    eexists (_ :: evs). rewrite Ht, <-app_assoc. split; [done|]. split.
    + intros sent o [?|Hin]%elem_of_cons; [done|]. by apply Hnochat in Hin.
    + intros ti e [?|Hin]%elem_of_cons; [done|].
      destruct (Hraise ti e Hin) as [-> Hlast]. split; [done|].
      by rewrite last_cons, Hlast.
  - intros [= <- <-]. simpl. eexists [_]. split; [done|]. split.
    + intros sent o Hin. by apply list_elem_of_singleton in Hin.
    + intros ti e Hin. by apply list_elem_of_singleton in Hin as [= -> ->].
Qed.

#[local] Arguments call_tools : simpl never.

(** An exception of a tool that line 276 does not catch leaves the loop
    at once; a loop of at least one iteration that is left at line 261 or
    at the cap has a reply in [response_message]. *)
Lemma tool_loop_raise (iterations : nat) (model : string) (tool_specs : option (list json))
    (llm_api : option APIInstance) (response_message : option Message)
    (st st' : LoopState) (exit : LoopExit) :
  tool_loop host iterations model tool_specs llm_api response_message st = (exit, st') →
  (∀ last, exit = LoopFinished last →
     iterations ≠ 0%nat ∨ is_Some response_message → is_Some last) ∧
  ∃ evs,
    loop_trace st' = loop_trace st ++ evs ∧
    ∀ tool_input e, EvTool tool_input (ToolRaised e) ∈ evs →
      exit = LoopRaised e ∧ last evs = Some (EvTool tool_input (ToolRaised e)).
Proof.
  revert response_message st.
  induction iterations as [|n IH]; intros response_message st; simpl.
  { intros [= <- <-]. split.
    - intros last [= <-] [?|?]; done.
    - exists []. rewrite app_nil_r. split; [done|]. intros ti e Hin. inversion Hin. }
  destruct (chat host model (loop_messages st) tool_specs (loop_world st))
    as [reply w] eqn:Hchat.
  destruct reply as [err|rm].
  { intros [= <- <-]. split; [done|]. simpl. eexists [_]. split; [done|].
    intros ti e Hin. by apply list_elem_of_singleton in Hin. }
  assert ((LoopFinished (Some rm),
             mkLoop (loop_messages st ++ [message_convert rm]) w
               (loop_trace st ++ [EvChat (loop_messages st) (inr rm)])) = (exit, st') →
          (∀ last, exit = LoopFinished last →
             S n ≠ 0%nat ∨ is_Some response_message → is_Some last) ∧
          ∃ evs,
            loop_trace st' = loop_trace st ++ evs ∧
            ∀ tool_input e, EvTool tool_input (ToolRaised e) ∈ evs →
              exit = LoopRaised e ∧ last evs = Some (EvTool tool_input (ToolRaised e)))
    as Hbreak.
  { intros [= <- <-]. split; [by intros last [= <-] _|]. simpl. eexists [_].
    split; [done|]. intros ti e Hin. by apply list_elem_of_singleton in Hin. }
  destruct (tool_calls rm) as [[|c r]|]; [done| |done].
  destruct llm_api as [api|]; [|done]. clear Hbreak.
  destruct (call_tools host api (c :: r) _) as [[e0|] st''] eqn:Htools.
  - intros [= <- <-]. split; [done|].
    apply call_tools_raise in Htools as (tevs & Ht & _ & Hraise). simpl in Ht.
    exists (EvChat (loop_messages st) (inr rm) :: tevs).
    rewrite Ht, <-app_assoc. split; [done|].
    intros ti e [?|Hin]%elem_of_cons; [done|].
    destruct (Hraise ti e Hin) as [[= ->] Hlast]. split; [done|].
    by rewrite last_cons, Hlast.
  - intros Hrest.
    apply call_tools_raise in Htools as (tevs & Ht & _ & Hraise). simpl in Ht.
    apply IH in Hrest as (Hsome & evs' & Ht' & Hraise'). split.
    + intros last Hexit _. apply (Hsome last Hexit). by right.
    + exists (EvChat (loop_messages st) (inr rm) :: tevs ++ evs').
      rewrite Ht', Ht, <-!app_assoc. split; [done|].
      intros ti e [?|[Hin|Hin]%elem_of_app]%elem_of_cons; [done| |].
      * by destruct (Hraise ti e Hin) as [? _].
      * destruct (Hraise' ti e Hin) as [-> Hlast]. split; [done|].
        change (EvChat (loop_messages st) (inr rm) :: tevs ++ evs')
          with ((EvChat (loop_messages st) (inr rm) :: tevs) ++ evs').
        by rewrite last_app, Hlast.
Qed.

Lemma setup_no_tool_events (tr : list (@Event Schema Serializer)) :
  Forall setup_success tr → ∀ tool_input o, EvTool tool_input o ∉ tr.
Proof.
  induction 1 as [|e tr He _ IH]; intros ti o Hin; [inversion Hin|].
  apply elem_of_cons in Hin as [<-|Hin]; [done|]. by apply IH in Hin.
Qed.

(** X16: An exception of a tool call that line 276 does not catch is the
    last thing that happens in the turn, and it is the exception
    [async_process] raises. *)
Theorem uncaught_tool_exception_propagates (entry : ConfigEntry)
    (user_input : ConversationInput) (_history : gmap string MessageHistory) (w : World)
    (tool_input : ToolInput) (e : exn) :
  EvTool tool_input (ToolRaised e) ∈ trace (async_process host entry user_input _history w) →
  result (async_process host entry user_input _history w) = Raised e ∧
  last (trace (async_process host entry user_input _history w)) =
    Some (EvTool tool_input (ToolRaised e)).
Proof.
  destruct (async_process_cases host entry user_input _history w)
    as [->|[[err ->]|[(err & pre & _ & Hpre & ->)|(llm_api & pre & Hpre & _ & _ & _ & Hran)]]].
  - intros Hin. inversion Hin.
  - intros Hin. by apply list_elem_of_singleton in Hin.
  - intros [Hin|Hin]%elem_of_app.
    + by apply (setup_no_tool_events pre Hpre) in Hin.
    + by apply list_elem_of_singleton in Hin.
  - destruct Hran as (settings & model & tool_specs & mh & trimmed & now & w1 & exit & st
                      & _ & _ & Hloop & ->).
    cbn [trace result]. apply tool_loop_raise in Hloop as (_ & evs & -> & Hraise).
    cbn [loop_trace]. intros [Hin|Hin]%elem_of_app.
    + by apply (setup_no_tool_events pre Hpre) in Hin.
    + destruct (Hraise tool_input e Hin) as [-> Hlast]. by rewrite last_app, Hlast.
Qed.


End Exceptions.

(** A tool that raises something line 276 does not catch. *)
Lemma uncaught_tool_exception_propagates_witness :
  result (async_process
            (scripted_host (inr demo_api) (inr "You are a voice assistant.")
               (λ _, inr c2_call) (λ _, ToolRaised (OtherError "TypeError")))
            demo_entry demo_input ∅ 0%nat) = Raised (OtherError "TypeError") ∧
  last (trace (async_process
                 (scripted_host (inr demo_api) (inr "You are a voice assistant.")
                    (λ _, inr c2_call) (λ _, ToolRaised (OtherError "TypeError")))
                 demo_entry demo_input ∅ 0%nat)) =
    Some (EvTool (mkToolInput "HassTurnOn" (JDict [("name", JStr "kitchen")]))
            (ToolRaised (OtherError "TypeError"))).
Proof.
  apply (uncaught_tool_exception_propagates
           (scripted_host (inr demo_api) (inr "You are a voice assistant.")
              (λ _, inr c2_call) (λ _, ToolRaised (OtherError "TypeError")))
           demo_entry demo_input ∅ 0%nat).
  vm_compute. do 3 apply list_elem_of_further. apply list_elem_of_here.
Defined.

